(** * zai_service: the FastAPI facade over the Z.AI chat SDK

    A shallow embedding of [python_backend/zai_service.py].  The handlers
    are translated into a state-and-exception monad.  The state holds the
    module-level [zai_client] global, the chronological list of calls made
    to the SDK client, and the number of readings of the event-loop clock.
    The SDK ([client], [custom_models]) and the Python library functions the
    module relies on ([str], [json.dumps], pydantic validation) are not part
    of the repository; they are the fields of a [World] record over which
    every theorem is quantified.

    Conventions.
    - A Python [str] is a Rocq [string]; a character is a code point below
      256, so [len] is [String.length].
    - [print] only writes to the standard output and is left out.
    - Exceptions are instances of [Exception], the class the handlers
      catch. *)

From Stdlib Require Import ZArith String Ascii List Bool Floats Lia.
Import ListNotations.
Set Warnings "-inexact-float,-register-all".
Local Open Scope string_scope.

(** ** Python values *)

(** The values a JSON body is parsed into ([Any] in the pydantic models):
    [None], [bool], [int], [float], [str], [list] and [dict] with string
    keys.  A [dict] keeps its insertion order. *)
Inductive Json : Type :=
| JNull
| JBool (b : bool)
| JInt (z : Z)
| JFloat (f : float)
| JStr (s : string)
| JList (l : list Json)
| JDict (d : list (string * Json)).

Definition dict : Type := list (string * Json).

(** [d.get(key, default)] *)
Fixpoint dict_get (d : dict) (key : string) (default : Json) : Json :=
  match d with
  | [] => default
  | (k, v) :: rest => if String.eqb k key then v else dict_get rest key default
  end.

(** [key in d] *)
Fixpoint dict_has (d : dict) (key : string) : bool :=
  match d with
  | [] => false
  | (k, _) :: rest => if String.eqb k key then true else dict_has rest key
  end.

(** [bool(v)] *)
Definition truthy (v : Json) : bool :=
  match v with
  | JNull => false
  | JBool b => b
  | JInt z => negb (Z.eqb z 0)
  | JFloat f => negb (PrimFloat.eqb f 0%float)
  | JStr s => negb (String.eqb s "")
  | JList l => match l with [] => false | _ :: _ => true end
  | JDict d => match d with [] => false | _ :: _ => true end
  end.

(** [a and b], [a or b] *)
Definition py_and (a b : Json) : Json := if truthy a then b else a.
Definition py_or (a b : Json) : Json := if truthy a then a else b.

(** [v == s] for a string literal [s] *)
Definition eq_str (v : Json) (s : string) : bool :=
  match v with
  | JStr t => String.eqb t s
  | _ => false
  end.

(** [s in names] for a list of string literals *)
Definition str_in (s : string) (names : list string) : bool :=
  existsb (String.eqb s) names.

(** [type(v).__name__] *)
Definition type_name (v : Json) : string :=
  match v with
  | JNull => "NoneType"
  | JBool _ => "bool"
  | JInt _ => "int"
  | JFloat _ => "float"
  | JStr _ => "str"
  | JList _ => "list"
  | JDict _ => "dict"
  end.

(** ** Exceptions *)

Inductive exn : Type :=
| Exception (message : string)
| HTTPException (status_code : Z) (detail : string).

Inductive result (A : Type) : Type :=
| Ok (a : A)
| Raised (e : exn).
Arguments Ok {A} a.
Arguments Raised {A} e.

(** decimal rendering of a status code, for [str] of an [HTTPException] *)
Definition digit (n : nat) : string :=
  String (ascii_of_nat (48 + n)) "".

Fixpoint decimal (fuel n : nat) : string :=
  match fuel with
  | O => ""
  | S fuel' =>
    if Nat.ltb n 10 then digit n
    else decimal fuel' (n / 10) ++ digit (n mod 10)
  end.

(** [str(e)] *)
Definition exn_str (e : exn) : string :=
  match e with
  | Exception message => message
  | HTTPException status_code detail =>
    let n := Z.to_nat status_code in decimal (S n) n ++ ": " ++ detail
  end.

Definition AttributeError (v : Json) (attribute : string) : exn :=
  Exception ("'" ++ type_name v ++ "' object has no attribute '" ++ attribute ++ "'").

Definition KeyError (key : string) : exn :=
  Exception ("'" ++ key ++ "'").

(** [len(v)] *)
Definition py_len (v : Json) : result Z :=
  match v with
  | JStr s => Ok (Z.of_nat (String.length s))
  | JList l => Ok (Z.of_nat (List.length l))
  | JDict d => Ok (Z.of_nat (List.length d))
  | _ => Raised (Exception ("object of type '" ++ type_name v ++ "' has no len()"))
  end.

(** [d[key]] *)
Definition getitem (d : dict) (key : string) : result Json :=
  if dict_has d key then Ok (dict_get d key JNull) else Raised (KeyError key).

(** [v.get(key, default)]; [v.get(key)] is [v.get(key, None)] *)
Definition method_get (v : Json) (key : string) (default : Json) : result Json :=
  match v with
  | JDict d => Ok (dict_get d key default)
  | _ => Raised (AttributeError v "get")
  end.

Definition LF : string := String (ascii_of_nat 10) "".

(** the lines of a triple-quoted literal *)
Definition lines (ls : list string) : string := String.concat LF ls.

(** ** The pydantic models of the API *)

Module ChatMessage.
Record t : Type := Build
  { role : string; content : string; timestamp : option float }.
End ChatMessage.

Module ChatRequest.
Record t : Type := Build
  { messages : list ChatMessage.t; config : dict }.
End ChatRequest.

Module ChatResponse.
Record t : Type := Build
  { content : string;
    thinking : option string;
    model : Json;
    usage : option dict }.
End ChatResponse.

Module ToolExecutionRequest.
Record t : Type := Build
  { toolName : string; input : dict; context : option dict }.
End ToolExecutionRequest.

Module ToolExecutionResponse.
Record t : Type := Build
  { success : bool;
    toolName : string;
    result : option Json;
    error : option string;
    timestamp : float }.
End ToolExecutionResponse.

(** ** The SDK as seen from the service *)

(** The [usage] attribute of an SDK response: missing, [None] or a dict. *)
Inductive usage_attr : Type :=
| UsageMissing
| UsageNone
| UsageDict (d : dict).

(** An SDK response object: [content] and the optional attributes the
    handlers read with [getattr] and [hasattr]. *)
Module Response.
Record t : Type := Build
  { content : string;
    thinking : option string;
    usage : usage_attr }.
End Response.

(** An attribute value of a streamed chunk: a JSON value, or an object
    [json.dumps] refuses (named by its class). *)
Inductive attr_value : Type :=
| Plain (v : Json)
| Opaque (class_name : string).

(** A streamed chunk: the attributes [delta_content] and [phase] when it
    has them, and its [str]. *)
Module Chunk.
Record t : Type := Build
  { delta_content : option attr_value;
    phase : option attr_value;
    str : string }.
End Chunk.

(** One step of the iterator [stream_completion] returns. *)
Inductive step : Type :=
| Yield (chunk : Chunk.t)
| StopIteration
| Raise (e : exn).

(** The iterator itself: what its n-th [next] does.  The sequence need not
    end. *)
Definition fragments : Type := nat -> step.

(** A call on the SDK: the constructor or a method of the client, with its
    keyword arguments. *)
Record Call : Type := mkCall
  { method : string; kwargs : dict }.

(** ** The world outside the module *)

Record World : Type := mkWorld
  { (** [str(v)] of a value that is not a [str] *)
    py_str : Json -> string;
    (** [json.dumps(v)] and [json.dumps(v, indent=2)] *)
    json_dumps : Json -> string;
    json_dumps_indent2 : Json -> string;
    (** validation by pydantic when a [ChatResponse] is constructed *)
    ChatResponse_validate : ChatResponse.t -> result ChatResponse.t;
    (** the n-th reading of [asyncio.get_event_loop().time()] *)
    loop_time : nat -> float;
    (** [custom_models.get_preset] and [custom_models.list_presets] *)
    get_preset : Json -> result Json;
    list_presets : result Json;
    (** [ZAIClient(...)]: authentication, given the calls made so far; the
        [verbose] and [timeout] arguments come from the process environment *)
    ZAIClient_new : list Call -> result unit;
    (** the methods of the client, given the calls made before this one *)
    simple_chat : list Call -> dict -> result Response.t;
    create_chat : list Call -> dict -> result Json;
    complete_chat : list Call -> dict -> result Response.t;
    stream_completion : list Call -> dict -> result fragments }.

(** A client instance, identified by the position of its construction in
    the list of calls. *)
Record ZAIClient : Type := mkClient { instance_id : nat }.

(** ** State and the handler monad *)

(** The module-level global [zai_client], followed by the bookkeeping of
    the embedding: the calls made on the SDK so far (oldest first), every
    instance the constructor has returned so far (oldest first), and the
    number of readings of the clock. *)
Record State : Type := mkState
  { zai_client : option ZAIClient;
    calls : list Call;
    constructed : list ZAIClient;
    clock_reads : nat }.

(** the state of the process once the module is loaded *)
Definition initial_state : State := mkState None [] [] 0.

Definition M (A : Type) : Type := State -> result A * State.

Definition ret {A} (a : A) : M A := fun s => (Ok a, s).

Definition bind {A B} (m : M A) (k : A -> M B) : M B :=
  fun s =>
    match m s with
    | (Ok a, s') => k a s'
    | (Raised e, s') => (Raised e, s')
    end.

Definition raise {A} (e : exn) : M A := fun s => (Raised e, s).

(** [try: body  except Exception as e: handler] *)
Definition try_except {A} (body : M A) (handler : exn -> M A) : M A :=
  fun s =>
    match body s with
    | (Ok a, s') => (Ok a, s')
    | (Raised e, s') => handler e s'
    end.

Definition lift {A} (r : result A) : M A := fun s => (r, s).

Declare Scope monad_scope.
Delimit Scope monad_scope with monad.
Notation "x <- m ;; k" := (bind m (fun x => k))
  (at level 61, m at next level, right associativity) : monad_scope.
Notation "m ;;; k" := (bind m (fun _ => k))
  (at level 61, right associativity) : monad_scope.
Local Open Scope monad_scope.

Definition record_call (c : Call) : M unit :=
  fun s =>
    (Ok tt, mkState (zai_client s) (calls s ++ [c]) (constructed s) (clock_reads s)).

Definition record_instance (c : ZAIClient) : M unit :=
  fun s =>
    (Ok tt, mkState (zai_client s) (calls s) (constructed s ++ [c]) (clock_reads s)).

(** [zai_client = c] *)
Definition set_zai_client (c : ZAIClient) : M unit :=
  fun s => (Ok tt, mkState (Some c) (calls s) (constructed s) (clock_reads s)).

Definition read_zai_client : M (option ZAIClient) :=
  fun s => (Ok (zai_client s), s).

Definition past_calls : M (list Call) :=
  fun s => (Ok (calls s), s).

(** The locals [model], [enable_thinking], [temperature], [top_p] and
    [max_tokens] of the two chat handlers. *)
Module GenConfig.
Record t : Type := Build
  { model : Json;
    enable_thinking : Json;
    temperature : Json;
    top_p : Json;
    max_tokens : Json }.
End GenConfig.

(** What [generate_stream] closes over. *)
Record Closure : Type := mkClosure
  { closure_client : option ZAIClient;
    closure_messages : list dict;
    closure_config : GenConfig.t }.

Record StreamingResponse : Type := mkStreamingResponse
  { body : Closure;
    media_type : string;
    headers : list (string * string) }.

(** One item yielded by [generate_stream]: the text
    [f"data: {json.dumps(data)}\n\n"], together with the [data] dict it was
    rendered from. *)
Record Event : Type := mkEvent
  { data : dict; text : string }.

(** How far a run of the generator got. *)
Inductive gen_status : Type :=
| Running
| Completed
| Errored.

(** How the [for chunk in ...] loop was left. *)
Inductive loop_end : Type :=
| Suspended
| Exhausted
| Failed (e : exn).

(** What the hosting framework asks of the module: the startup hook, a
    request to one of the endpoints and, for a streaming response, the
    consumption of its body for [fuel] fragments. *)
Inductive operation : Type :=
| Startup
| GetHealth
| GetTools
| PostChat (request : ChatRequest.t)
| PostChatStream (request : ChatRequest.t) (fuel : nat)
| PostExecuteTool (request : ToolExecutionRequest.t).

Section Service.

Variable W : World.

(** *** Python helpers that depend on the world *)

(** a replacement field [{v}] of an f-string *)
Definition fmt (v : Json) : string :=
  match v with
  | JStr s => s
  | _ => py_str W v
  end.

(** [asyncio.get_event_loop().time()] *)
Definition now : M float :=
  fun s =>
    (Ok (loop_time W (clock_reads s)),
     mkState (zai_client s) (calls s) (constructed s) (S (clock_reads s))).

(** a method call on [client] with keyword arguments [kw]: the call is
    recorded, then answered by the world *)
Definition invoke {A} (client : option ZAIClient) (name : string)
    (answer : list Call -> dict -> result A) (kw : dict) : M A :=
  match client with
  | None => raise (AttributeError JNull name)
  | Some _ =>
    before <- past_calls ;;
    record_call (mkCall name kw) ;;;
    lift (answer before kw)
  end.

(** *** The client accessor *)

(** [ZAIClient(auto_auth=True, verbose=..., timeout=...)] *)
Definition new_client : M ZAIClient :=
  before <- past_calls ;;
  record_call (mkCall "ZAIClient" [("auto_auth", JBool true)]) ;;;
  lift (ZAIClient_new W before) ;;;
  let c := mkClient (List.length before) in
  record_instance c ;;;
  ret c.

Definition get_zai_client : M (option ZAIClient) :=
  current <- read_zai_client ;;
  match current with
  | None =>
    try_except
      (c <- new_client ;;
       set_zai_client c)
      (fun e => raise e)
  | Some _ => ret tt
  end ;;;
  read_zai_client.

Definition startup_event : M unit :=
  try_except
    (get_zai_client ;;; ret tt)
    (fun e => ret tt).

(** *** GET /health *)

Definition health_check : M dict :=
  try_except
    (client <- get_zai_client ;;
     t <- now ;;
     ret [("status", JStr "healthy");
          ("timestamp", JFloat t);
          ("pythonSDK", JStr "web-ui-python-sdk");
          ("client_ready",
           JBool (match client with Some _ => true | None => false end))])
    (fun e =>
     t <- now ;;
     ret [("status", JStr "unhealthy");
          ("error", JStr (exn_str e));
          ("timestamp", JFloat t)]).

(** *** GET /tools *)

Definition tools : list string :=
  ["analyzeRepositoryStructure";
   "searchRepositoryFiles";
   "getRepositoryInfo";
   "analyzCodeWithLynlang";
   "compareCodePatterns";
   "analyzePageContext";
   "extractPageContent";
   "pythonAnalyzeRepository";
   "pythonCodeReview"].

(** ['list_presets' in globals()] holds whenever the module was loaded *)
Definition list_tools : M dict :=
  presets <- lift (list_presets W) ;;
  ret [("tools", JList (map JStr tools));
       ("count", JInt (Z.of_nat (List.length tools)));
       ("presets", presets)].

(** *** The request normalisation shared by /chat and /chat-stream *)

(** [[{"role": msg.role, "content": msg.content} for msg in request.messages]] *)
Definition to_messages (msgs : list ChatMessage.t) : list dict :=
  map (fun msg => [("role", JStr (ChatMessage.role msg));
                   ("content", JStr (ChatMessage.content msg))]) msgs.

(** the five [config.get] lines *)
Definition extract_config (config : dict) : GenConfig.t :=
  GenConfig.Build
    (dict_get config "model" (JStr "glm-4.5v"))
    (dict_get config "enableThinking" (JBool true))
    (dict_get config "temperature" (JFloat 0.7))
    (dict_get config "topP" (JFloat 0.9))
    (dict_get config "maxTokens" (JInt 2000)).



(** the block [# Get preset if specified] of [chat_completion];
    ['get_preset' in globals()] holds whenever the module was loaded *)
Definition apply_preset (config : dict) (g : GenConfig.t) : M GenConfig.t :=
  let preset_name := dict_get config "preset" JNull in
  if truthy preset_name then
    preset <- lift (get_preset W preset_name) ;;
    if truthy preset then
      temperature <- lift (method_get preset "temperature" (GenConfig.temperature g)) ;;
      top_p <- lift (method_get preset "top_p" (GenConfig.top_p g)) ;;
      max_tokens <- lift (method_get preset "max_tokens" (GenConfig.max_tokens g)) ;;
      ret (GenConfig.Build (GenConfig.model g) (GenConfig.enable_thinking g)
             temperature top_p max_tokens)
    else ret g
  else ret g.

(** [messages[0]] *)
Definition first (messages : list dict) : result dict :=
  match messages with
  | m :: _ => Ok m
  | [] => Raised (Exception "list index out of range")
  end.

(** [len(messages) == 1 and messages[0]["role"] == "user"] *)
Definition single_user_message (messages : list dict) : M bool :=
  if Nat.eqb (List.length messages) 1 then
    m <- lift (first messages) ;;
    role <- lift (getitem m "role") ;;
    ret (eq_str role "user")
  else ret false.

(** [messages[0]["content"] if messages else "Hello"] *)
Definition initial_message (messages : list dict) : M Json :=
  match messages with
  | _ :: _ =>
    m <- lift (first messages) ;;
    lift (getitem m "content")
  | [] => ret (JStr "Hello")
  end.

(** [chat.get("id") if chat else default] *)
Definition chat_id_of (chat default : Json) : M Json :=
  if truthy chat then lift (method_get chat "id" JNull) else ret default.

(** the generation arguments common to the completion calls *)
Definition generation_kwargs (g : GenConfig.t) : dict :=
  [("model", GenConfig.model g);
   ("enable_thinking", GenConfig.enable_thinking g);
   ("temperature", GenConfig.temperature g);
   ("top_p", GenConfig.top_p g);
   ("max_tokens", GenConfig.max_tokens g)].

Definition create_chat_kwargs (title : string) (g : GenConfig.t)
    (initial : Json) : dict :=
  [("title", JStr title);
   ("models", JList [GenConfig.model g]);
   ("initial_message", initial);
   ("enable_thinking", GenConfig.enable_thinking g)].

(** *** POST /chat *)

Definition usage_or_none (u : usage_attr) : option dict :=
  match u with
  | UsageDict d => Some d
  | _ => None
  end.

Definition chat_completion (request : ChatRequest.t) : M ChatResponse.t :=
  try_except
    (client <- get_zai_client ;;
     let messages := to_messages (ChatRequest.messages request) in
     let config := ChatRequest.config request in
     g <- apply_preset config (extract_config config) ;;
     single <- single_user_message messages ;;
     response <-
       (if single then
          m <- lift (first messages) ;;
          message <- lift (getitem m "content") ;;
          invoke client "simple_chat" (simple_chat W)
            (("message", message) :: generation_kwargs g)
        else
          initial <- initial_message messages ;;
          chat <- invoke client "create_chat" (create_chat W)
                    (create_chat_kwargs "API Chat Session" g initial) ;;
          chat_id <- chat_id_of chat JNull ;;
          invoke client "complete_chat" (complete_chat W)
            (("chat_id", chat_id) :: ("messages", JList (map JDict messages))
             :: generation_kwargs g)) ;;
     lift (ChatResponse_validate W
             (ChatResponse.Build
                (Response.content response)
                (Response.thinking response)
                (GenConfig.model g)
                (usage_or_none (Response.usage response)))))
    (fun e =>
     raise (HTTPException 500 ("Chat completion failed: " ++ exn_str e))).

(** *** POST /chat-stream *)

Definition chat_stream (request : ChatRequest.t) : M StreamingResponse :=
  try_except
    (client <- get_zai_client ;;
     let messages := to_messages (ChatRequest.messages request) in
     let config := ChatRequest.config request in
     let g := extract_config config in
     ret (mkStreamingResponse
            (mkClosure client messages g)
            "text/plain"
            [("Cache-Control", "no-cache");
             ("Connection", "keep-alive");
             ("Content-Type", "text/stream-event")]))
    (fun e =>
     raise (HTTPException 500 ("Streaming failed: " ++ exn_str e))).

(** [f"data: {json.dumps(data)}\n\n"] *)
Definition sse (d : dict) : Event :=
  mkEvent d ("data: " ++ json_dumps W (JDict d) ++ LF ++ LF).

Definition not_serializable (class_name : string) : exn :=
  Exception ("Object of type " ++ class_name ++ " is not JSON serializable").

(** the body of the [for] loop up to its [yield] *)
Definition delta_event (chunk : Chunk.t) : result Event :=
  let delta :=
    match Chunk.delta_content chunk with
    | Some v => v
    | None => Plain (JStr (Chunk.str chunk))
    end in
  let phase :=
    match Chunk.phase chunk with
    | Some v => v
    | None => Plain (JStr "answer")
    end in
  match delta, phase with
  | Plain d, Plain p => Ok (sse [("delta", d); ("phase", p)])
  | Opaque c, _ => Raised (not_serializable c)
  | Plain _, Opaque c => Raised (not_serializable c)
  end.

(** the [except] clause of [generate_stream] *)
Definition error_event (e : exn) : Event :=
  sse [("error", JStr (exn_str e)); ("phase", JStr "error")].

(** the [for] loop, from the i-th fragment on, for at most [fuel]
    fragments *)
Fixpoint stream_loop (src : fragments) (fuel i : nat) : list Event * loop_end :=
  match fuel with
  | O => ([], Suspended)
  | S fuel' =>
    match src i with
    | StopIteration => ([], Exhausted)
    | Raise e => ([], Failed e)
    | Yield chunk =>
      match delta_event chunk with
      | Raised e => ([], Failed e)
      | Ok ev =>
        let (evs, r) := stream_loop src fuel' (S i) in (ev :: evs, r)
      end
    end
  end.

(** what [generate_stream] does before its loop *)
Definition open_stream (c : Closure) : M fragments :=
  let g := closure_config c in
  initial <- initial_message (closure_messages c) ;;
  chat <- invoke (closure_client c) "create_chat" (create_chat W)
            (create_chat_kwargs "Streaming Chat Session" g initial) ;;
  chat_id <- chat_id_of chat (JStr "default") ;;
  invoke (closure_client c) "stream_completion" (stream_completion W)
    (("chat_id", chat_id)
     :: ("messages", JList (map JDict (closure_messages c)))
     :: generation_kwargs g).

(** [generate_stream], driven until it ends or has taken [fuel]
    fragments from the client; with no fuel it is not started *)
Definition generate_stream (c : Closure) (fuel : nat)
    : State -> (list Event * gen_status) * State :=
  fun s =>
    match fuel with
    | O => (([], Running), s)
    | S _ =>
      match open_stream c s with
      | (Raised e, s') => (([error_event e], Errored), s')
      | (Ok src, s') =>
        match stream_loop src fuel 0 with
        | (evs, Suspended) => ((evs, Running), s')
        | (evs, Exhausted) => ((evs, Completed), s')
        | (evs, Failed e) => (((evs ++ [error_event e])%list, Errored), s')
        end
      end
    end.

(** *** POST /execute-tool *)

(** [getattr(response, 'thinking', None)] as a value of a result dict *)
Definition thinking_or_none (response : Response.t) : Json :=
  match Response.thinking response with
  | Some t => JStr t
  | None => JNull
  end.

(** [getattr(response, 'usage', {}).get('total_tokens', 0)
     if hasattr(response, 'usage') else 0] *)
Definition tokens_used (response : Response.t) : result Json :=
  match Response.usage response with
  | UsageMissing => Ok (JInt 0)
  | UsageNone => Raised (AttributeError JNull "get")
  | UsageDict d => Ok (dict_get d "total_tokens" (JInt 0))
  end.

Definition analysis_prompt (owner repo analysis_type : Json) : string :=
  lines
    ["Analyze the GitHub repository " ++ fmt owner ++ "/" ++ fmt repo
       ++ " with focus on " ++ fmt analysis_type ++ ".";
     "            Please provide:";
     "            1. Overall repository structure and organization";
     "            2. Key technologies and frameworks used  ";
     "            3. Code quality assessment";
     "            4. Architecture patterns identified";
     "            5. Potential improvements or issues";
     "            ";
     "            Be specific and actionable in your analysis."].

Definition review_prompt (code language review_type context_info : Json)
    : string :=
  lines
    ["Please review this " ++ fmt language ++ " code with focus on "
       ++ fmt review_type ++ " aspects:";
     "";
     fmt (py_or (py_and context_info (JStr ("Context: " ++ fmt context_info)))
                (JStr ""));
     "";
     "Code:";
     "```" ++ fmt language;
     fmt code;
     "```";
     "";
     "Please provide:";
     "1. Code quality assessment";
     "2. Security considerations";
     "3. Performance implications  ";
     "4. Best practices adherence";
     "5. Specific improvement suggestions";
     "6. Potential bugs or issues";
     "";
     "Be detailed and actionable in your feedback."].

Definition tool_description (tool_name : string) (tool_input : dict) : string :=
  "Execute " ++ tool_name ++ " with parameters: "
    ++ json_dumps_indent2 W (JDict tool_input).

Definition assist_prompt (tool_name : string) (tool_input : dict) : string :=
  "Help with this development task: " ++ tool_description tool_name tool_input
    ++ ". Please provide practical assistance and guidance.".

(** the keyword arguments of the three [simple_chat] calls *)
Definition analysis_kwargs (prompt : string) : dict :=
  [("message", JStr prompt);
   ("model", JStr "0727-360B-API");
   ("enable_thinking", JBool true);
   ("temperature", JFloat 0.3)].

Definition review_kwargs (prompt : string) : dict :=
  [("message", JStr prompt);
   ("model", JStr "0727-360B-API");
   ("enable_thinking", JBool true);
   ("temperature", JFloat 0.2)].

Definition assist_kwargs (prompt : string) : dict :=
  [("message", JStr prompt);
   ("model", JStr "glm-4.5v");
   ("enable_thinking", JBool false);
   ("temperature", JFloat 0.7)].

(** the first branch: repository analysis *)
Definition analyze_repository (client : option ZAIClient) (tool_input : dict)
    : M dict :=
  let owner := dict_get tool_input "owner" (JStr "") in
  let repo := dict_get tool_input "repo" (JStr "") in
  let analysis_type := dict_get tool_input "analysisType" (JStr "structure") in
  let prompt := analysis_prompt owner repo analysis_type in
  response <- invoke client "simple_chat" (simple_chat W)
                (analysis_kwargs prompt) ;;
  t <- now ;;
  tokens <- lift (tokens_used response) ;;
  ret [("success", JBool true);
       ("source", JStr "zai-python-sdk");
       ("repository", JStr (fmt owner ++ "/" ++ fmt repo));
       ("analysisType", analysis_type);
       ("analysis", JStr (Response.content response));
       ("thinking", thinking_or_none response);
       ("model", JStr "0727-360B-API");
       ("metadata", JDict [("timestamp", JFloat t); ("tokensUsed", tokens)])].

(** the second branch: code review *)
Definition code_review (client : option ZAIClient) (tool_input : dict)
    : M dict :=
  let code := dict_get tool_input "code" (JStr "") in
  let language := dict_get tool_input "language" (JStr "typescript") in
  let review_type := dict_get tool_input "reviewType" (JStr "comprehensive") in
  let context_info := dict_get tool_input "context" (JStr "") in
  let prompt := review_prompt code language review_type context_info in
  response <- invoke client "simple_chat" (simple_chat W)
                (review_kwargs prompt) ;;
  code_length <- lift (py_len code) ;;
  t <- now ;;
  ret [("success", JBool true);
       ("review", JStr (Response.content response));
       ("thinking", thinking_or_none response);
       ("language", language);
       ("reviewType", review_type);
       ("model", JStr "0727-360B-API");
       ("codeLength", JInt code_length);
       ("timestamp", JFloat t)].

(** the last branch: any other tool *)
Definition general_assistance (client : option ZAIClient)
    (tool_name : string) (tool_input : dict) : M dict :=
  response <- invoke client "simple_chat" (simple_chat W)
                (assist_kwargs (assist_prompt tool_name tool_input)) ;;
  t <- now ;;
  ret [("success", JBool true);
       ("content", JStr (Response.content response));
       ("model", JStr "glm-4.5v");
       ("timestamp", JFloat t)].

Definition execute_tool (request : ToolExecutionRequest.t)
    : M ToolExecutionResponse.t :=
  try_except
    (client <- get_zai_client ;;
     let tool_name := ToolExecutionRequest.toolName request in
     let tool_input := ToolExecutionRequest.input request in
     result <-
       (if str_in tool_name ["pythonAnalyzeRepository"; "analyzeRepositoryStructure"]
        then analyze_repository client tool_input
        else if str_in tool_name ["pythonCodeReview"]
        then code_review client tool_input
        else general_assistance client tool_name tool_input) ;;
     t <- now ;;
     ret (ToolExecutionResponse.Build true tool_name (Some (JDict result)) None t))
    (fun e =>
     t <- now ;;
     ret (ToolExecutionResponse.Build false
            (ToolExecutionRequest.toolName request)
            None (Some (exn_str e)) t)).

(** *** The life of the process *)

Definition perform (op : operation) (s : State) : State :=
  match op with
  | Startup => snd (startup_event s)
  | GetHealth => snd (health_check s)
  | GetTools => snd (list_tools s)
  | PostChat request => snd (chat_completion request s)
  | PostChatStream request fuel =>
    match chat_stream request s with
    | (Ok response, s') => snd (generate_stream (body response) fuel s')
    | (Raised _, s') => s'
    end
  | PostExecuteTool request => snd (execute_tool request s)
  end.

Fixpoint run (ops : list operation) (s : State) : State :=
  match ops with
  | [] => s
  | op :: rest => run rest (perform op s)
  end.

End Service.

(** ** A sample world and sample requests, for the concrete runs *)

Definition sample_response : Response.t :=
  Response.Build "Looks fine." None UsageMissing.

Definition sample_chunk (delta : string) : Chunk.t :=
  Chunk.Build (Some (Plain (JStr delta))) (Some (Plain (JStr "answer"))) delta.

(** two fragments, then the end *)
Definition sample_fragments : fragments :=
  fun n =>
    match n with
    | 0 => Yield (sample_chunk "Hel")
    | 1 => Yield (sample_chunk "lo")
    | _ => StopIteration
    end.

(** one preset, [creative], which only sets the temperature *)
Definition sample_get_preset (name : Json) : result Json :=
  if eq_str name "creative"
  then Ok (JDict [("temperature", JFloat 1.2)])
  else Ok JNull.

Definition sample_world : World :=
  {| py_str := fun _ => "?";
     json_dumps := fun _ => "{}";
     json_dumps_indent2 := fun _ => "{}";
     ChatResponse_validate := fun r => Ok r;
     loop_time := fun _ => 12.5%float;
     get_preset := sample_get_preset;
     list_presets := Ok (JList [JStr "creative"]);
     ZAIClient_new := fun _ => Ok tt;
     simple_chat := fun _ _ => Ok sample_response;
     create_chat := fun _ _ => Ok (JDict [("id", JStr "chat-1")]);
     complete_chat := fun _ _ => Ok sample_response;
     stream_completion := fun _ _ => Ok sample_fragments |}.

Definition user_says (content : string) : ChatMessage.t :=
  ChatMessage.Build "user" content None.

Definition assistant_says (content : string) : ChatMessage.t :=
  ChatMessage.Build "assistant" content None.

(** the review request of the specification's example *)
Definition review_request : ToolExecutionRequest.t :=
  ToolExecutionRequest.Build "pythonCodeReview"
    [("code", JStr "x=1"); ("language", JStr "python")] None.

(** a conversation that names the sample preset *)
Definition preset_conversation : ChatRequest.t :=
  ChatRequest.Build
    [user_says "hi"; assistant_says "hello"; user_says "tell me more"]
    [("preset", JStr "creative")].

(** a world whose stream yields one fragment and then fails *)
Definition broken_fragments : fragments :=
  fun n =>
    match n with
    | 0 => Yield (sample_chunk "Hel")
    | _ => Raise (Exception "connection reset")
    end.

Definition broken_world : World :=
  {| py_str := py_str sample_world;
     json_dumps := json_dumps sample_world;
     json_dumps_indent2 := json_dumps_indent2 sample_world;
     ChatResponse_validate := ChatResponse_validate sample_world;
     loop_time := loop_time sample_world;
     get_preset := get_preset sample_world;
     list_presets := list_presets sample_world;
     ZAIClient_new := ZAIClient_new sample_world;
     simple_chat := simple_chat sample_world;
     create_chat := create_chat sample_world;
     complete_chat := complete_chat sample_world;
     stream_completion := fun _ _ => Ok broken_fragments |}.

(** a fragment the client itself tags with the phase "error" *)
Definition tagged_chunk : Chunk.t :=
  Chunk.Build (Some (Plain (JStr "rate limited")))
    (Some (Plain (JStr "error"))) "rate limited".

(** a world whose stream yields two such fragments and then returns *)
Definition tagged_fragments : fragments :=
  fun n =>
    match n with
    | 0 => Yield tagged_chunk
    | 1 => Yield tagged_chunk
    | _ => StopIteration
    end.

Definition tagging_world : World :=
  {| py_str := py_str sample_world;
     json_dumps := json_dumps sample_world;
     json_dumps_indent2 := json_dumps_indent2 sample_world;
     ChatResponse_validate := ChatResponse_validate sample_world;
     loop_time := loop_time sample_world;
     get_preset := get_preset sample_world;
     list_presets := list_presets sample_world;
     ZAIClient_new := ZAIClient_new sample_world;
     simple_chat := simple_chat sample_world;
     create_chat := create_chat sample_world;
     complete_chat := complete_chat sample_world;
     stream_completion := fun _ _ => Ok tagged_fragments |}.

(** what [generate_stream] closes over for the sample conversation *)
Definition sample_closure : Closure :=
  mkClosure (Some (mkClient 0))
    (to_messages (ChatRequest.messages preset_conversation))
    (extract_config (ChatRequest.config preset_conversation)).

(** a search request, which no branch of the dispatcher names *)
Definition search_request : ToolExecutionRequest.t :=
  ToolExecutionRequest.Build "searchRepositoryFiles"
    [("query", JStr "parser")] None.

(** a review request whose code is a number *)
Definition odd_review_request : ToolExecutionRequest.t :=
  ToolExecutionRequest.Build "pythonCodeReview" [("code", JInt 5)] None.

(** a day in the life of the process *)
Definition sample_day : list operation :=
  [GetHealth;
   PostChat preset_conversation;
   PostExecuteTool review_request;
   PostChatStream preset_conversation 10;
   Startup;
   GetTools].

(** a world in which the client cannot be constructed *)
Definition offline_world : World :=
  {| py_str := py_str sample_world;
     json_dumps := json_dumps sample_world;
     json_dumps_indent2 := json_dumps_indent2 sample_world;
     ChatResponse_validate := ChatResponse_validate sample_world;
     loop_time := loop_time sample_world;
     get_preset := get_preset sample_world;
     list_presets := list_presets sample_world;
     ZAIClient_new := fun _ => Raised (Exception "authentication failed");
     simple_chat := simple_chat sample_world;
     create_chat := create_chat sample_world;
     complete_chat := complete_chat sample_world;
     stream_completion := stream_completion sample_world |}.

(** a world whose client cannot be constructed at first and can be later *)
Definition flaky_world : World :=
  {| py_str := py_str sample_world;
     json_dumps := json_dumps sample_world;
     json_dumps_indent2 := json_dumps_indent2 sample_world;
     ChatResponse_validate := ChatResponse_validate sample_world;
     loop_time := loop_time sample_world;
     get_preset := get_preset sample_world;
     list_presets := list_presets sample_world;
     ZAIClient_new :=
       fun before =>
         match before with
         | [] => Raised (Exception "authentication failed")
         | _ :: _ => Ok tt
         end;
     simple_chat := simple_chat sample_world;
     create_chat := create_chat sample_world;
     complete_chat := complete_chat sample_world;
     stream_completion := stream_completion sample_world |}.

(** an answer whose [usage] attribute is [None] *)
Definition unmetered_response : Response.t :=
  Response.Build "Looks fine." (Some "Reading the tree.") UsageNone.

(** an answer that reports its token usage *)
Definition metered_response : Response.t :=
  Response.Build "Looks fine." None (UsageDict [("total_tokens", JInt 42)]).

(** a world with the given behaviour of [simple_chat] *)
Definition world_answering (answer : result Response.t) : World :=
  {| py_str := py_str sample_world;
     json_dumps := json_dumps sample_world;
     json_dumps_indent2 := json_dumps_indent2 sample_world;
     ChatResponse_validate := ChatResponse_validate sample_world;
     loop_time := loop_time sample_world;
     get_preset := get_preset sample_world;
     list_presets := list_presets sample_world;
     ZAIClient_new := ZAIClient_new sample_world;
     simple_chat := fun _ _ => answer;
     create_chat := create_chat sample_world;
     complete_chat := complete_chat sample_world;
     stream_completion := stream_completion sample_world |}.

(** a world with the given behaviour of the preset resolver and of
    [create_chat] *)
Definition world_resolving (resolver : Json -> result Json)
    (session : result Json) : World :=
  {| py_str := py_str sample_world;
     json_dumps := json_dumps sample_world;
     json_dumps_indent2 := json_dumps_indent2 sample_world;
     ChatResponse_validate := ChatResponse_validate sample_world;
     loop_time := loop_time sample_world;
     get_preset := resolver;
     list_presets := list_presets sample_world;
     ZAIClient_new := ZAIClient_new sample_world;
     simple_chat := simple_chat sample_world;
     create_chat := fun _ _ => session;
     complete_chat := complete_chat sample_world;
     stream_completion := stream_completion sample_world |}.

(** an analysis request for a repository *)
Definition analysis_request : ToolExecutionRequest.t :=
  ToolExecutionRequest.Build "pythonAnalyzeRepository"
    [("owner", JStr "rocq-prover"); ("repo", JStr "rocq")] None.

(** a chat request of one user message *)
Definition greeting : ChatRequest.t :=
  ChatRequest.Build [user_says "hi"] [].

(** ** Vocabulary of the properties *)

Local Open Scope list_scope.

(** *** The states the accessor leads to *)

Definition after_construction (s : State) : State :=
  let c := mkClient (List.length (calls s)) in
  mkState (Some c)
    (calls s ++ [mkCall "ZAIClient" [("auto_auth", JBool true)]])
    (constructed s ++ [c])
    (clock_reads s).

Definition after_failed_construction (s : State) : State :=
  mkState None
    (calls s ++ [mkCall "ZAIClient" [("auto_auth", JBool true)]])
    (constructed s)
    (clock_reads s).

(** *** Vocabulary for the streaming properties *)

(** the terminal event of the [except] clause: its data has an [error] key *)
Definition is_terminal_event (ev : Event) : bool :=
  dict_has (data ev) "error".

(** a re-emitted fragment: its data has a [delta] key and no [error] key *)
Definition is_delta_event (ev : Event) : bool :=
  dict_has (data ev) "delta" && negb (dict_has (data ev) "error").

Definition terminal_events (evs : list Event) : nat :=
  List.length (filter is_terminal_event evs).

(** an event with an error phase: its [phase] is the string "error" *)
Definition has_error_phase (ev : Event) : bool :=
  eq_str (dict_get (data ev) "phase" JNull) "error".

Definition error_phase_events (evs : list Event) : nat :=
  List.length (filter has_error_phase evs).

(** the claim that a stream that has ended did so in one way only, the
    error events being the events with an error phase: a natural completion
    with no such event, or an error ending with exactly one *)
Definition ends_in_one_way (evs : list Event) (st : gen_status) : Prop :=
  (st = Completed /\ error_phase_events evs = 0)
  \/ (st = Errored /\ error_phase_events evs = 1).

(** the i-th step of the client's iterator is its last: it returns or raises *)
Definition ends_at (src : fragments) (i : nat) : bool :=
  match src i with
  | Yield _ => false
  | StopIteration => true
  | Raise _ => true
  end.

(** the shape of what a run of [generate_stream] has emitted *)
Definition well_ended (W : World) (evs : list Event) (st : gen_status) : Prop :=
  match st with
  | Running | Completed => forallb is_delta_event evs = true
  | Errored =>
    exists deltas e,
      evs = deltas ++ [error_event W e] /\ forallb is_delta_event deltas = true
  end.

(** *** Vocabulary for the calls on the client *)

(** the most recent call *)
Definition last_call (s : State) : Call :=
  last (calls s) (mkCall "" []).

(** the [temperature] argument of a call, when it is a float literal *)
Definition temperature_of (kw : dict) : float :=
  match dict_get kw "temperature" JNull with
  | JFloat f => f
  | _ => 0%float
  end.

(** the five generation arguments of a call *)
Definition generation_arguments (c : Call) : list Json :=
  map (fun key => dict_get (kwargs c) key JNull)
    ["model"; "enable_thinking"; "temperature"; "top_p"; "max_tokens"]%string.

(** *** Vocabulary for the life of the client *)

Definition is_constructor_call (c : Call) : bool :=
  String.eqb (method c) "ZAIClient".

(** how many times the constructor has been called *)
Definition constructor_calls (s : State) : nat :=
  List.length (filter is_constructor_call (calls s)).

(** a computation that leaves the global and the set of instances alone
    and does not call the constructor *)
Definition preserves {A} (m : M A) : Prop :=
  forall s,
    zai_client (snd (m s)) = zai_client s
    /\ constructed (snd (m s)) = constructed s
    /\ constructor_calls (snd (m s)) = constructor_calls s.

(** what may happen to the client between two states of the process: an
    existing client stays, with no further construction; an absent one
    stays absent or is replaced by one new instance *)
Definition client_step (s s' : State) : Prop :=
  match zai_client s with
  | Some c =>
    zai_client s' = Some c
    /\ constructed s' = constructed s
    /\ constructor_calls s' = constructor_calls s
  | None =>
    (zai_client s' = None /\ constructed s' = constructed s)
    \/ (exists c, zai_client s' = Some c /\ constructed s' = constructed s ++ [c])
  end.

(** the global holds the only instance there is *)
Definition one_client (s : State) : Prop :=
  constructed s = match zai_client s with Some c => [c] | None => [] end.

(** the claim that the health probe reports the state it found and leaves
    it as it found it *)
Definition probe_is_passive (W : World) (s : State) : Prop :=
  exists answer s',
    health_check W s = (Ok answer, s')
    /\ (dict_get answer "client_ready" JNull = JBool true <-> zai_client s <> None)
    /\ (zai_client s' <> None <-> zai_client s <> None).

(** *** Vocabulary for the dispatcher *)

(** the keyword arguments of the one call a tool request leads to *)
Definition delegation_kwargs (W : World) (request : ToolExecutionRequest.t) : dict :=
  let tool_name := ToolExecutionRequest.toolName request in
  let tool_input := ToolExecutionRequest.input request in
  if str_in tool_name ["pythonAnalyzeRepository"; "analyzeRepositoryStructure"]%string
  then analysis_kwargs
         (analysis_prompt W
            (dict_get tool_input "owner" (JStr ""))
            (dict_get tool_input "repo" (JStr ""))
            (dict_get tool_input "analysisType" (JStr "structure")))
  else if str_in tool_name ["pythonCodeReview"]%string
  then review_kwargs
         (review_prompt W
            (dict_get tool_input "code" (JStr ""))
            (dict_get tool_input "language" (JStr "typescript"))
            (dict_get tool_input "reviewType" (JStr "comprehensive"))
            (dict_get tool_input "context" (JStr "")))
  else assist_kwargs (assist_prompt W tool_name tool_input).

(** the state once one more call on the client is recorded *)
Definition after_call (s : State) (c : Call) : State :=
  mkState (zai_client s) (calls s ++ [c]) (constructed s) (clock_reads s).

(** the state once the clock has been read [n] more times *)
Definition after_reads (s : State) (n : nat) : State :=
  mkState (zai_client s) (calls s) (constructed s) (n + clock_reads s).

(** the role and the content of a message, without its timestamp *)
Definition spoken (m : ChatMessage.t) : string * string :=
  (ChatMessage.role m, ChatMessage.content m).

(** the step of the client's iterator at which the [for] loop is left, and
    how: the iterator returns or raises, or the fragment cannot be
    rendered *)
Definition leaves_loop (W : World) (st : step) : option loop_end :=
  match st with
  | StopIteration => Some Exhausted
  | Raise e => Some (Failed e)
  | Yield chunk =>
    match delta_event W chunk with
    | Raised e => Some (Failed e)
    | Ok _ => None
    end
  end.

(** * Properties *)

(** ** The monad *)

Lemma snd_try_reraise {A} (body : M A) (f : exn -> exn) (s : State) :
  snd (try_except body (fun e => raise (f e)) s) = snd (body s).
Proof.
  unfold try_except, raise. now destruct (body s) as [[a | e] s'].
Qed.

Lemma snd_try_except_ret {A} (body : M A) (f : exn -> float -> A) (W : World)
    (s : State) :
  calls (snd (try_except body (fun e => bind (now W) (fun t => ret (f e t))) s))
  = calls (snd (body s)).
Proof.
  unfold try_except, bind, now, ret. now destruct (body s) as [[a | e] s'].
Qed.

Lemma snd_bind {A B} (m : M A) (k : A -> M B) (s : State) :
  snd (bind m k s)
  = match m s with
    | (Ok a, s') => snd (k a s')
    | (Raised _, s') => s'
    end.
Proof.
  unfold bind. now destruct (m s) as [[a | e] s'].
Qed.

Lemma snd_bind_lift {A B} (m : M A) (f : A -> result B) (s : State) :
  snd (bind m (fun a => lift (f a)) s) = snd (m s).
Proof.
  unfold bind, lift. now destruct (m s) as [[a | e] s'].
Qed.

Lemma invoke_some {A} (c : ZAIClient) (name : string)
    (answer : list Call -> dict -> result A) (kw : dict) (s : State) :
  invoke (Some c) name answer kw s
  = (answer (calls s) kw,
     mkState (zai_client s) (calls s ++ [mkCall name kw]) (constructed s)
       (clock_reads s)).
Proof. reflexivity. Qed.

(** ** The client accessor *)

Ltac run_monad :=
  unfold bind, ret, lift, raise, try_except, read_zai_client, past_calls,
    record_call, record_instance, set_zai_client; simpl.

Lemma get_zai_client_present (W : World) (s : State) (c : ZAIClient) :
  zai_client s = Some c -> get_zai_client W s = (Ok (Some c), s).
Proof.
  intros H. unfold get_zai_client. run_monad.
  rewrite H. simpl. rewrite H. reflexivity.
Qed.

Lemma get_zai_client_absent (W : World) (s : State) :
  zai_client s = None ->
  get_zai_client W s =
  match ZAIClient_new W (calls s) with
  | Ok _ => (Ok (Some (mkClient (List.length (calls s)))), after_construction s)
  | Raised e => (Raised e, after_failed_construction s)
  end.
Proof.
  intros H. unfold get_zai_client, new_client. run_monad. rewrite H.
  destruct (ZAIClient_new W (calls s)) as [u | e]; simpl.
  - reflexivity.
  - unfold after_failed_construction. rewrite H. reflexivity.
Qed.

(** the accessor either hands out the one client or raises *)
Lemma get_zai_client_returns (W : World) (s : State) :
  (exists c s', get_zai_client W s = (Ok (Some c), s') /\ zai_client s' = Some c)
  \/ (exists e s', get_zai_client W s = (Raised e, s') /\ zai_client s' = None).
Proof.
  destruct (zai_client s) as [c |] eqn:H.
  - left. exists c, s. split; [now apply get_zai_client_present | exact H].
  - rewrite (get_zai_client_absent W s H).
    destruct (ZAIClient_new W (calls s)) as [u | e].
    + left. eexists _, _. split; reflexivity.
    + right. eexists _, _. split; reflexivity.
Qed.

(** ** Tool dispatch *)

(** C1. Tool dispatch is total: for every world, state and request,
    [execute_tool] returns (it never raises) a response that names the
    requested tool, carries a reading of the clock and is either a success
    with a result payload and no error, or a failure with an error text and
    no result. *)
Theorem execute_tool_total (W : World) (request : ToolExecutionRequest.t) (s : State) :
  exists response s',
    execute_tool W request s = (Ok response, s')
    /\ ToolExecutionResponse.toolName response = ToolExecutionRequest.toolName request
    /\ (exists n, clock_reads s' = S n
                  /\ ToolExecutionResponse.timestamp response = loop_time W n)
    /\ ((ToolExecutionResponse.success response = true
         /\ (exists payload, ToolExecutionResponse.result response = Some (JDict payload))
         /\ ToolExecutionResponse.error response = None)
        \/ (ToolExecutionResponse.success response = false
            /\ ToolExecutionResponse.result response = None
            /\ (exists text, ToolExecutionResponse.error response = Some text))).
Proof.
  unfold execute_tool, try_except, bind at 1.
  destruct (get_zai_client W s) as [[client | e] s1].
  - unfold bind at 1.
    match goal with
    | |- context [ (if ?b then ?x else ?y) s1 ] =>
      destruct ((if b then x else y) s1) as [[payload | e] s2]
    end.
    + eexists _, _. split; [reflexivity |]. simpl.
      split; [reflexivity |]. split; [eexists; split; reflexivity |].
      left. repeat split; eauto.
    + eexists _, _. split; [reflexivity |]. simpl.
      split; [reflexivity |]. split; [eexists; split; reflexivity |].
      right. repeat split; eauto.
  - eexists _, _. split; [reflexivity |]. simpl.
    split; [reflexivity |]. split; [eexists; split; reflexivity |].
    right. repeat split; eauto.
Qed.

Example execute_tool_offline :
  fst (execute_tool offline_world review_request initial_state)
  = Ok (ToolExecutionResponse.Build false "pythonCodeReview" None
          (Some "authentication failed"%string) 12.5).
Proof. reflexivity. Qed.

(** the client is asked for the review before [len(code)] fails *)
Example execute_tool_code_without_length :
  let (response, s') := execute_tool sample_world odd_review_request initial_state in
  response
  = Ok (ToolExecutionResponse.Build false "pythonCodeReview" None
          (Some "object of type 'int' has no len()"%string) 12.5)
  /\ map method (calls s') = ["ZAIClient"; "simple_chat"]%string.
Proof. split; reflexivity. Qed.

(** ** Request normalisation *)

Lemma dict_get_default (d : dict) (key : string) (default : Json) :
  dict_get d key default
  = if dict_has d key then dict_get d key JNull else default.
Proof.
  induction d as [| [k v] rest IH]; simpl.
  - reflexivity.
  - destruct (String.eqb k key); [reflexivity | exact IH].
Qed.

Lemma apply_preset_keeps_state (W : World) (config : dict) (g : GenConfig.t) (s : State) :
  snd (apply_preset W config g s) = s.
Proof.
  unfold apply_preset.
  destruct (truthy (dict_get config "preset" JNull)); [| reflexivity].
  unfold bind at 1, lift at 1.
  destruct (get_preset W (dict_get config "preset" JNull)) as [preset | e];
    [| reflexivity].
  destruct (truthy preset); [| reflexivity].
  destruct preset; reflexivity.
Qed.

Lemma to_messages_single (m : ChatMessage.t) (s : State) :
  single_user_message (to_messages [m]) s
  = (Ok (String.eqb (ChatMessage.role m) "user"), s).
Proof. reflexivity. Qed.

Lemma initial_message_seed (msgs : list ChatMessage.t) (s : State) :
  initial_message (to_messages msgs) s
  = (Ok (match msgs with
         | m :: _ => JStr (ChatMessage.content m)
         | [] => JStr "Hello"
         end), s).
Proof. destruct msgs; reflexivity. Qed.

(** C2. A request with exactly one message, of role "user": once the
    accessor has handed out the client and the generation parameters are
    resolved, the only call [chat_completion] makes on the client is one
    [simple_chat] with that message's content and the resolved parameters;
    in particular no session is created. *)
Theorem single_user_message_is_single_turn
    (W : World) (content : string) (ts : option float) (config : dict)
    (s s1 : State) (client : ZAIClient) (g : GenConfig.t) :
  get_zai_client W s = (Ok (Some client), s1) ->
  apply_preset W config (extract_config config) s1 = (Ok g, s1) ->
  let request := ChatRequest.Build [ChatMessage.Build "user" content ts] config in
  let s' := snd (chat_completion W request s) in
  calls s' = calls s1 ++ [mkCall "simple_chat"
                            [("message", JStr content);
                             ("model", GenConfig.model g);
                             ("enable_thinking", GenConfig.enable_thinking g);
                             ("temperature", GenConfig.temperature g);
                             ("top_p", GenConfig.top_p g);
                             ("max_tokens", GenConfig.max_tokens g)]]
  /\ forall c, In c (skipn (List.length (calls s1)) (calls s')) ->
               method c <> "create_chat".
Proof.
  intros Hclient Hpreset request s'.
  assert (Hcalls : calls s' = calls s1 ++ [mkCall "simple_chat"
                            (("message", JStr content) :: generation_kwargs g)]).
  { subst s' request. unfold chat_completion, try_except.
    unfold bind at 1. rewrite Hclient. simpl ChatRequest.messages.
    simpl ChatRequest.config.
    unfold bind at 1. rewrite Hpreset.
    unfold bind at 1. rewrite to_messages_single. simpl.
    unfold bind at 1. unfold bind at 1. simpl.
    unfold invoke, bind, past_calls, record_call, lift. simpl.
    destruct (simple_chat W (calls s1) _) as [response | e]; simpl.
    - destruct (ChatResponse_validate W _); reflexivity.
    - reflexivity. }
  split; [exact Hcalls |].
  intros c Hin. rewrite Hcalls in Hin.
  rewrite skipn_app, skipn_all, Nat.sub_diag in Hin. simpl in Hin.
  destruct Hin as [<- | []]. simpl. discriminate.
Qed.

Lemma single_user_message_is_single_turn_witness :
  let request := ChatRequest.Build [ChatMessage.Build "user" "hi" None] [] in
  calls (snd (chat_completion sample_world request initial_state))
  = [mkCall "ZAIClient" [("auto_auth", JBool true)];
     mkCall "simple_chat"
       [("message", JStr "hi");
        ("model", JStr "glm-4.5v");
        ("enable_thinking", JBool true);
        ("temperature", JFloat 0.7);
        ("top_p", JFloat 0.9);
        ("max_tokens", JInt 2000)]].
Proof.
  exact (proj1 (single_user_message_is_single_turn sample_world "hi" None []
                  initial_state (after_construction initial_state)
                  (mkClient 0) (extract_config [])
                  eq_refl eq_refl)).
Defined.

Lemma not_single_user_message (msgs : list ChatMessage.t) (s : State) :
  (forall m, msgs = [m] -> ChatMessage.role m <> "user"%string) ->
  single_user_message (to_messages msgs) s = (Ok false, s).
Proof.
  intros H. destruct msgs as [| m [| m' rest]].
  - reflexivity.
  - rewrite to_messages_single.
    destruct (String.eqb_spec (ChatMessage.role m) "user") as [E | E].
    + now destruct (H m eq_refl).
    + reflexivity.
  - reflexivity.
Qed.

(** C3. A request that is not a single "user" message (no message, one
    message of another role, or several messages): once the accessor has
    handed out the client and the generation parameters are resolved, the
    first call [chat_completion] makes is [create_chat], seeded with the
    content of the first message, or with "Hello" when there is none.  The
    only other call is the [complete_chat] that follows it when the session
    was obtained; it carries every message, in the order of the request. *)
Theorem conversation_opens_session_first
    (W : World) (request : ChatRequest.t)
    (s s1 : State) (client : ZAIClient) (g : GenConfig.t) :
  get_zai_client W s = (Ok (Some client), s1) ->
  apply_preset W (ChatRequest.config request)
    (extract_config (ChatRequest.config request)) s1 = (Ok g, s1) ->
  (forall m, ChatRequest.messages request = [m] ->
             ChatMessage.role m <> "user"%string) ->
  let messages :=
    map (fun m => JDict [("role", JStr (ChatMessage.role m));
                         ("content", JStr (ChatMessage.content m))])
        (ChatRequest.messages request) in
  let seed :=
    match ChatRequest.messages request with
    | m :: _ => JStr (ChatMessage.content m)
    | [] => JStr "Hello"
    end in
  let create :=
    mkCall "create_chat"
      [("title", JStr "API Chat Session");
       ("models", JList [GenConfig.model g]);
       ("initial_message", seed);
       ("enable_thinking", GenConfig.enable_thinking g)] in
  let complete chat_id :=
    mkCall "complete_chat"
      [("chat_id", chat_id);
       ("messages", JList messages);
       ("model", GenConfig.model g);
       ("enable_thinking", GenConfig.enable_thinking g);
       ("temperature", GenConfig.temperature g);
       ("top_p", GenConfig.top_p g);
       ("max_tokens", GenConfig.max_tokens g)] in
  let s' := snd (chat_completion W request s) in
  match create_chat W (calls s1) (kwargs create) with
  | Raised _ => calls s' = calls s1 ++ [create]
  | Ok chat =>
    if truthy chat then
      match chat with
      | JDict session =>
        calls s' = calls s1 ++ [create; complete (dict_get session "id" JNull)]
      | _ => calls s' = calls s1 ++ [create]
      end
    else calls s' = calls s1 ++ [create; complete JNull]
  end.
Proof.
  intros Hclient Hpreset Hshape messages seed create complete s'.
  subst s'. unfold chat_completion.
  rewrite snd_try_reraise, snd_bind, Hclient, snd_bind, Hpreset, snd_bind.
  rewrite (not_single_user_message _ _ Hshape), snd_bind_lift, snd_bind.
  rewrite initial_message_seed. fold seed.
  rewrite snd_bind, invoke_some.
  change (create_chat_kwargs "API Chat Session" g seed) with (kwargs create).
  change (mkCall "create_chat" (kwargs create)) with create.
  destruct (create_chat W (calls s1) (kwargs create)) as [chat | e];
    [| reflexivity].
  rewrite snd_bind. unfold chat_id_of.
  destruct (truthy chat) eqn:Htruthy.
  - destruct chat; try reflexivity.
    unfold lift, method_get. rewrite invoke_some. simpl.
    unfold to_messages. now rewrite map_map, <- app_assoc.
  - unfold ret. rewrite invoke_some. simpl.
    unfold to_messages. now rewrite map_map, <- app_assoc.
Qed.

Lemma conversation_opens_session_first_witness :
  calls (snd (chat_completion sample_world preset_conversation initial_state))
  = [mkCall "ZAIClient" [("auto_auth", JBool true)];
     mkCall "create_chat"
       [("title", JStr "API Chat Session");
        ("models", JList [JStr "glm-4.5v"]);
        ("initial_message", JStr "hi");
        ("enable_thinking", JBool true)];
     mkCall "complete_chat"
       [("chat_id", JStr "chat-1");
        ("messages",
         JList [JDict [("role", JStr "user"); ("content", JStr "hi")];
                JDict [("role", JStr "assistant"); ("content", JStr "hello")];
                JDict [("role", JStr "user"); ("content", JStr "tell me more")]]);
        ("model", JStr "glm-4.5v");
        ("enable_thinking", JBool true);
        ("temperature", JFloat 1.2);
        ("top_p", JFloat 0.9);
        ("max_tokens", JInt 2000)]].
Proof.
  refine (conversation_opens_session_first sample_world preset_conversation
            initial_state (after_construction initial_state) (mkClient 0)
            (GenConfig.Build (JStr "glm-4.5v") (JBool true) (JFloat 1.2)
               (JFloat 0.9) (JInt 2000))
            eq_refl eq_refl _).
  intros m H. discriminate H.
Defined.

(** ** Preset resolution *)

(** C4. A request whose configuration names a preset, with the resolver
    answering [preset] for that name.  When the answer is "not found"
    ([None], or any other false value) the resolution does not raise and the
    generation parameters are the caller's.  When the answer is a mapping,
    the resolution does not raise either; the model and the thinking flag
    are the caller's, and each of temperature, top-p and max-tokens is the
    preset's entry when the preset has one and the caller's value when it
    has none. *)
Theorem preset_resolution
    (W : World) (config : dict) (g : GenConfig.t) (s : State) (preset : Json) :
  truthy (dict_get config "preset" JNull) = true ->
  get_preset W (dict_get config "preset" JNull) = Ok preset ->
  (truthy preset = false -> apply_preset W config g s = (Ok g, s))
  /\ (forall overrides, preset = JDict overrides ->
      exists g',
        apply_preset W config g s = (Ok g', s)
        /\ GenConfig.model g' = GenConfig.model g
        /\ GenConfig.enable_thinking g' = GenConfig.enable_thinking g
        /\ GenConfig.temperature g'
           = (if dict_has overrides "temperature"
              then dict_get overrides "temperature" JNull
              else GenConfig.temperature g)
        /\ GenConfig.top_p g'
           = (if dict_has overrides "top_p"
              then dict_get overrides "top_p" JNull
              else GenConfig.top_p g)
        /\ GenConfig.max_tokens g'
           = (if dict_has overrides "max_tokens"
              then dict_get overrides "max_tokens" JNull
              else GenConfig.max_tokens g)).
Proof.
  intros Hname Hpreset. unfold apply_preset. rewrite Hname.
  unfold bind at 1, lift at 1. rewrite Hpreset. split.
  - intros Hfalse. now rewrite Hfalse.
  - intros overrides ->. destruct overrides as [| entry rest].
    + exists g. repeat split; reflexivity.
    + exists (GenConfig.Build (GenConfig.model g) (GenConfig.enable_thinking g)
                (dict_get (entry :: rest) "temperature" (GenConfig.temperature g))
                (dict_get (entry :: rest) "top_p" (GenConfig.top_p g))
                (dict_get (entry :: rest) "max_tokens" (GenConfig.max_tokens g))).
      split; [reflexivity |].
      split; [reflexivity |]. split; [reflexivity |].
      split; [apply dict_get_default |].
      split; apply dict_get_default.
Qed.

Lemma preset_resolution_witness :
  let config := [("preset", JStr "creative"); ("temperature", JFloat 0.1)] in
  (exists g',
     apply_preset sample_world config (extract_config config) initial_state
     = (Ok g', initial_state)
     /\ GenConfig.model g' = JStr "glm-4.5v"
     /\ GenConfig.enable_thinking g' = JBool true
     /\ GenConfig.temperature g' = JFloat 1.2
     /\ GenConfig.top_p g' = JFloat 0.9
     /\ GenConfig.max_tokens g' = JInt 2000)
  /\ apply_preset sample_world [("preset", JStr "nonesuch")]
       (extract_config []) initial_state
     = (Ok (extract_config []), initial_state).
Proof.
  split.
  - exact (proj2 (preset_resolution sample_world
                    [("preset", JStr "creative"); ("temperature", JFloat 0.1)]
                    (extract_config
                       [("preset", JStr "creative"); ("temperature", JFloat 0.1)])
                    initial_state (JDict [("temperature", JFloat 1.2)])
                    eq_refl eq_refl) _ eq_refl).
  - exact (proj1 (preset_resolution sample_world [("preset", JStr "nonesuch")]
                    (extract_config []) initial_state JNull eq_refl eq_refl)
                 eq_refl).
Defined.

(** ** Streaming *)

Lemma delta_event_is_delta (W : World) (chunk : Chunk.t) (ev : Event) :
  delta_event W chunk = Ok ev -> is_delta_event ev = true.
Proof.
  unfold delta_event.
  destruct (Chunk.delta_content chunk) as [[d | c] |];
    destruct (Chunk.phase chunk) as [[p | c'] |];
    intros H; inversion H; reflexivity.
Qed.

Lemma error_event_is_error (W : World) (e : exn) :
  is_terminal_event (error_event W e) = true
  /\ is_delta_event (error_event W e) = false
  /\ dict_get (data (error_event W e)) "phase" JNull = JStr "error"
  /\ dict_get (data (error_event W e)) "error" JNull = JStr (exn_str e).
Proof. repeat split. Qed.

Lemma delta_events_not_terminal (evs : list Event) :
  forallb is_delta_event evs = true -> terminal_events evs = 0.
Proof.
  unfold terminal_events. induction evs as [| ev evs IH]; simpl.
  - reflexivity.
  - intros H. apply andb_prop in H. destruct H as [Hev Hevs].
    unfold is_delta_event in Hev. apply andb_prop in Hev.
    destruct Hev as [_ Hev]. unfold is_terminal_event.
    destruct (dict_has (data ev) "error"); [discriminate | now apply IH].
Qed.

Lemma stream_loop_deltas (W : World) (src : fragments) (fuel i : nat) :
  forallb is_delta_event (fst (stream_loop W src fuel i)) = true.
Proof.
  revert i. induction fuel as [| fuel IH]; intros i; simpl.
  - reflexivity.
  - destruct (src i) as [chunk | | e]; try reflexivity.
    destruct (delta_event W chunk) as [ev | e] eqn:Hev; try reflexivity.
    specialize (IH (S i)).
    destruct (stream_loop W src fuel (S i)) as [evs r]. simpl in *.
    now rewrite (delta_event_is_delta W chunk ev Hev).
Qed.

Lemma stream_loop_prefix (W : World) (src : fragments) (evs : list Event) :
  forall (i fuel : nat) (r : loop_end),
    (forall j ev, nth_error evs j = Some ev ->
                  exists chunk, src (i + j) = Yield chunk
                                /\ delta_event W chunk = Ok ev) ->
    leaves_loop W (src (i + List.length evs)) = Some r ->
    List.length evs < fuel ->
    stream_loop W src fuel i = (evs, r).
Proof.
  induction evs as [| ev evs IH]; intros i fuel r Hyields Hleaves Hfuel.
  - destruct fuel as [| fuel]; [lia |]. simpl in *.
    rewrite Nat.add_0_r in Hleaves. unfold leaves_loop in Hleaves.
    destruct (src i) as [chunk | | e].
    + destruct (delta_event W chunk); [discriminate | now inversion Hleaves].
    + now inversion Hleaves.
    + now inversion Hleaves.
  - destruct fuel as [| fuel]; [simpl in Hfuel; lia |]. simpl.
    destruct (Hyields 0 ev eq_refl) as (chunk & Hchunk & Hev).
    rewrite Nat.add_0_r in Hchunk. rewrite Hchunk, Hev.
    rewrite (IH (S i) fuel r).
    + reflexivity.
    + intros j ev' Hj. destruct (Hyields (S j) ev' Hj) as (c & Hc & Hev').
      exists c. split; [| exact Hev'].
      now replace (S i + j) with (i + S j) by lia.
    + simpl in Hleaves. now replace (S i + List.length evs)
        with (i + S (List.length evs)) by lia.
    + simpl in Hfuel. lia.
Qed.

Lemma filter_forallb {A} (f : A -> bool) (l : list A) :
  forallb f l = true -> filter f l = l.
Proof.
  induction l as [| a l IH]; simpl; [reflexivity |].
  intros H. apply andb_prop in H. destruct H as [Ha Hl].
  now rewrite Ha, (IH Hl).
Qed.

(** a sequence that ends by step [n] leaves the loop at some step [k] up to
    [n], every fragment before [k] having been rendered *)
Lemma first_leave (W : World) (src : fragments) (n : nat) :
  forall i,
    ends_at src (i + n) = true ->
    exists k evs r,
      k <= n /\ List.length evs = k
      /\ (forall j ev, nth_error evs j = Some ev ->
                       exists chunk, src (i + j) = Yield chunk
                                     /\ delta_event W chunk = Ok ev)
      /\ leaves_loop W (src (i + k)) = Some r.
Proof.
  induction n as [| n IH]; intros i Hend.
  - exists 0, [], (match src (i + 0) with Raise e => Failed e | _ => Exhausted end).
    split; [lia |]. split; [reflexivity |]. split.
    + intros [| j] ev H; discriminate H.
    + unfold ends_at in Hend. unfold leaves_loop.
      now destruct (src (i + 0)).
  - destruct (leaves_loop W (src i)) as [r |] eqn:Hleave.
    + exists 0, [], r. split; [lia |]. split; [reflexivity |]. split.
      * intros [| j] ev H; discriminate H.
      * now rewrite Nat.add_0_r.
    + unfold leaves_loop in Hleave.
      destruct (src i) as [chunk | | e] eqn:Hi; try discriminate.
      destruct (delta_event W chunk) as [ev |] eqn:Hev; try discriminate.
      destruct (IH (S i)) as (k & evs & r & Hk & Hlen & Hyields & Hr).
      { now replace (S i + n) with (i + S n) by lia. }
      exists (S k), (ev :: evs), r.
      split; [lia |]. split; [simpl; now rewrite Hlen |]. split.
      * intros [| j] ev' H.
        -- inversion H; subst ev'. exists chunk.
           rewrite Nat.add_0_r. now split.
        -- destruct (Hyields j ev' H) as (c & Hc & Hc').
           exists c. split; [| exact Hc'].
           now replace (i + S j) with (S i + j) by lia.
      * now replace (i + S k) with (S i + k) by lia.
Qed.

(** C5 (as amended). The events of a streaming response, against what the
    client does.  However far the body is consumed, what has been emitted is
    a run of delta events, followed by the one terminal event of the
    [except] clause when the generator ended on an exception and by nothing
    otherwise; the events with an error phase are that terminal event, if
    any, and the fragments the client itself tagged with that phase.  When
    opening the stream raises, the body is the terminal event of that
    exception alone.  When the stream is opened and the client's fragment
    sequence ends by step [n], then for some [k] up to [n] the fragments
    before [k] are re-emitted in order and, consumed beyond [n], the body is
    exactly those events and completes when step [k] is the end of the
    client's sequence, or is those events and the terminal event of the
    exception when step [k] raises or yields a fragment that cannot be
    rendered: never both, and nothing after the terminal event. *)
Theorem stream_ends_as_client_does (W : World) (c : Closure) (s : State) :
  (forall fuel,
     let '(evs, st, _) := generate_stream W c fuel s in
     well_ended W evs st
     /\ terminal_events evs = match st with Errored => 1 | _ => 0 end
     /\ error_phase_events evs
        = error_phase_events (filter is_delta_event evs)
          + match st with Errored => 1 | _ => 0 end)
  /\ (forall cause s1 fuel,
        open_stream W c s = (Raised cause, s1) ->
        generate_stream W c (S fuel) s = (([error_event W cause], Errored), s1))
  /\ (forall src s1 n,
        open_stream W c s = (Ok src, s1) ->
        ends_at src n = true ->
        exists k evs,
          k <= n /\ List.length evs = k
          /\ (forall j ev, nth_error evs j = Some ev ->
                           exists chunk, src j = Yield chunk
                                         /\ delta_event W chunk = Ok ev)
          /\ ((src k = StopIteration
               /\ forall fuel, n < fuel ->
                    generate_stream W c fuel s = ((evs, Completed), s1))
              \/ (exists cause,
                    (src k = Raise cause
                     \/ exists chunk, src k = Yield chunk
                                      /\ delta_event W chunk = Raised cause)
                    /\ forall fuel, n < fuel ->
                         generate_stream W c fuel s
                         = ((evs ++ [error_event W cause], Errored), s1)))).
Proof.
  split; [| split].
  - intros fuel. unfold generate_stream.
    destruct fuel as [| fuel]; [repeat split |].
    destruct (open_stream W c s) as [[src | e] s1].
    + pose proof (stream_loop_deltas W src (S fuel) 0) as Hdeltas.
      destruct (stream_loop W src (S fuel) 0) as [evs [| | e]]; simpl in Hdeltas.
      * split; [exact Hdeltas |].
        split; [now apply delta_events_not_terminal |].
        now rewrite (filter_forallb _ _ Hdeltas), Nat.add_0_r.
      * split; [exact Hdeltas |].
        split; [now apply delta_events_not_terminal |].
        now rewrite (filter_forallb _ _ Hdeltas), Nat.add_0_r.
      * split; [exists evs, e; split; [reflexivity | exact Hdeltas] |].
        split.
        -- unfold terminal_events. rewrite filter_app, length_app.
           fold (terminal_events evs).
           now rewrite delta_events_not_terminal.
        -- rewrite (filter_app is_delta_event), (filter_forallb _ _ Hdeltas).
           unfold error_phase_events. rewrite !filter_app, !length_app.
           simpl. lia.
    + split; [exists [], e; split; reflexivity |]. split; reflexivity.
  - intros cause s1 fuel Hopen. unfold generate_stream. now rewrite Hopen.
  - intros src s1 n Hopen Hend.
    destruct (first_leave W src n 0 Hend)
      as (k & evs & r & Hk & Hlen & Hyields & Hleave).
    exists k, evs. split; [exact Hk |]. split; [exact Hlen |].
    split; [exact Hyields |].
    assert (Hrun : forall fuel, n < fuel ->
              generate_stream W c fuel s
              = (match r with
                 | Failed e => (evs ++ [error_event W e], Errored)
                 | Exhausted => (evs, Completed)
                 | Suspended => (evs, Running)
                 end, s1)).
    { intros fuel Hfuel. unfold generate_stream.
      destruct fuel as [| fuel]; [lia |]. rewrite Hopen.
      rewrite (stream_loop_prefix W src evs 0 (S fuel) r Hyields).
      - now destruct r.
      - now rewrite Hlen.
      - lia. }
    simpl in Hleave. unfold leaves_loop in Hleave.
    destruct (src k) as [chunk | | e] eqn:Hsrc.
    + destruct (delta_event W chunk) as [ev | e] eqn:Hev; [discriminate |].
      inversion Hleave; subst r. right. exists e. split; [| exact Hrun].
      right. exists chunk. now split.
    + inversion Hleave; subst r. left. now split.
    + inversion Hleave; subst r. right. exists e. split; [| exact Hrun].
      now left.
Qed.

Lemma stream_ends_as_client_does_witness :
  let s := after_construction initial_state in
  exists k evs,
    k <= 1 /\ List.length evs = k
    /\ (forall j ev, nth_error evs j = Some ev ->
                     exists chunk, broken_fragments j = Yield chunk
                                   /\ delta_event broken_world chunk = Ok ev)
    /\ ((broken_fragments k = StopIteration
         /\ forall fuel, 1 < fuel ->
              generate_stream broken_world sample_closure fuel s
              = ((evs, Completed), snd (open_stream broken_world sample_closure s)))
        \/ (exists cause,
              (broken_fragments k = Raise cause
               \/ exists chunk, broken_fragments k = Yield chunk
                                /\ delta_event broken_world chunk = Raised cause)
              /\ forall fuel, 1 < fuel ->
                   generate_stream broken_world sample_closure fuel s
                   = ((evs ++ [error_event broken_world cause], Errored),
                      snd (open_stream broken_world sample_closure s)))).
Proof.
  exact (proj2 (proj2 (stream_ends_as_client_does broken_world sample_closure
                         (after_construction initial_state)))
           broken_fragments _ 1 eq_refl eq_refl).
Defined.

(** C5, the claim as stated, fails: in the sample world whose client tags
    two fragments with the phase "error" and then ends its sequence, the
    stream completes naturally and has two events with an error phase. *)
Lemma tagged_stream_completes_with_error_phases :
  let '(evs, st, _) :=
    generate_stream tagging_world sample_closure 10
      (after_construction initial_state) in
  st = Completed
  /\ error_phase_events evs = 2
  /\ map data evs
     = [[("delta", JStr "rate limited"); ("phase", JStr "error")];
        [("delta", JStr "rate limited"); ("phase", JStr "error")]]
  /\ ~ ends_in_one_way evs st.
Proof.
  repeat split.
  intros [[_ H] | [H _]]; discriminate H.
Qed.

Example sample_stream_completes :
  let '(evs, st, s') :=
    generate_stream sample_world sample_closure 10
      (after_construction initial_state) in
  List.length evs = 2 /\ terminal_events evs = 0 /\ st = Completed
  /\ map method (calls s') = ["ZAIClient"; "create_chat"; "stream_completion"]%string.
Proof. repeat split. Qed.

Example broken_stream_ends_on_one_error :
  let '(evs, st, _) :=
    generate_stream broken_world sample_closure 10
      (after_construction initial_state) in
  map data evs
  = [[("delta", JStr "Hel"); ("phase", JStr "answer")];
     [("error", JStr "connection reset"); ("phase", JStr "error")]]
  /\ terminal_events evs = 1 /\ st = Errored.
Proof. repeat split. Qed.

(** ** /chat against /chat-stream *)

Lemma chat_stream_config (W : World) (request : ChatRequest.t)
    (s s' : State) (response : StreamingResponse) :
  chat_stream W request s = (Ok response, s') ->
  closure_config (body response) = extract_config (ChatRequest.config request).
Proof.
  unfold chat_stream, try_except, bind, ret, raise.
  destruct (get_zai_client W s) as [[client | e] s1]; intros H; inversion H.
  reflexivity.
Qed.

Lemma apply_preset_without_preset (W : World) (config : dict) (g : GenConfig.t)
    (s : State) :
  truthy (dict_get config "preset" JNull) = false ->
  apply_preset W config g s = (Ok g, s).
Proof.
  intros H. unfold apply_preset. now rewrite H.
Qed.

(** C6. The streaming path does not resolve presets.  For the sample
    conversation, whose configuration names the preset [creative] (which
    sets the temperature to 1.2), /chat passes temperature 1.2 to
    [complete_chat] while /chat-stream passes the default 0.7 to
    [stream_completion]: the generation arguments of the two paths
    differ. *)
Theorem chat_stream_ignores_preset :
  let chat := last_call (perform sample_world (PostChat preset_conversation)
                           initial_state) in
  let stream := last_call (perform sample_world
                             (PostChatStream preset_conversation 10)
                             initial_state) in
  method chat = "complete_chat"%string
  /\ method stream = "stream_completion"%string
  /\ dict_get (kwargs chat) "temperature" JNull = JFloat 1.2
  /\ dict_get (kwargs stream) "temperature" JNull = JFloat 0.7
  /\ generation_arguments chat <> generation_arguments stream.
Proof.
  repeat split. intros H. inversion H.
Qed.

(** ** The three branches of the dispatcher *)

Lemma string_app_assoc (a b c : string) :
  ((a ++ b) ++ c = a ++ (b ++ c))%string.
Proof.
  induction a as [| ch a IH]; simpl; [reflexivity | now rewrite IH].
Qed.

Lemma execute_tool_delegated
    (W : World) (request : ToolExecutionRequest.t) (s s1 s2 : State)
    (client : ZAIClient) (branch : M dict) (payload : dict) :
  get_zai_client W s = (Ok (Some client), s1) ->
  (if str_in (ToolExecutionRequest.toolName request)
        ["pythonAnalyzeRepository"; "analyzeRepositoryStructure"]%string
   then analyze_repository W (Some client) (ToolExecutionRequest.input request)
   else if str_in (ToolExecutionRequest.toolName request) ["pythonCodeReview"]%string
   then code_review W (Some client) (ToolExecutionRequest.input request)
   else general_assistance W (Some client)
          (ToolExecutionRequest.toolName request)
          (ToolExecutionRequest.input request)) = branch ->
  branch s1 = (Ok payload, s2) ->
  execute_tool W request s
  = (Ok (ToolExecutionResponse.Build true
           (ToolExecutionRequest.toolName request)
           (Some (JDict payload)) None (loop_time W (clock_reads s2))),
     mkState (zai_client s2) (calls s2) (constructed s2) (S (clock_reads s2))).
Proof.
  intros Hclient Hbranch Hrun. unfold execute_tool, try_except.
  unfold bind at 1. rewrite Hclient.
  unfold bind at 1. rewrite Hbranch, Hrun. reflexivity.
Qed.

(** C7 (as amended). The review example of the specification: the tool
    "pythonCodeReview" with input {code: "x=1", language: "python"}.  Once
    the accessor has handed out the client and the client answers the
    review call, the response has success true and its result carries the
    client's answer as review text (non-empty whenever the answer is),
    language "python" and codeLength 3, the length of "x=1". *)
Theorem review_example
    (W : World) (s s1 : State) (client : ZAIClient) (answer : Response.t) :
  get_zai_client W s = (Ok (Some client), s1) ->
  simple_chat W (calls s1)
    (review_kwargs
       (review_prompt W (JStr "x=1") (JStr "python") (JStr "comprehensive")
          (JStr ""))) = Ok answer ->
  exists response s' payload,
    execute_tool W review_request s = (Ok response, s')
    /\ ToolExecutionResponse.success response = true
    /\ ToolExecutionResponse.toolName response = "pythonCodeReview"%string
    /\ ToolExecutionResponse.result response = Some (JDict payload)
    /\ dict_get payload "review" JNull = JStr (Response.content answer)
    /\ dict_get payload "language" JNull = JStr "python"
    /\ dict_get payload "codeLength" JNull = JInt 3.
Proof.
  intros Hclient Hanswer.
  eexists _, _, _. split.
  - eapply execute_tool_delegated; [exact Hclient | reflexivity |].
    match goal with
    | |- _ = ?r =>
      change (code_review W (Some client)
                (ToolExecutionRequest.input review_request) s1 = r)
    end.
    unfold code_review. unfold bind at 1.
    rewrite invoke_some.
    change (simple_chat W (calls s1) _) with
      (simple_chat W (calls s1)
         (review_kwargs
            (review_prompt W (JStr "x=1") (JStr "python") (JStr "comprehensive")
               (JStr "")))).
    rewrite Hanswer. reflexivity.
  - repeat split.
Qed.

Lemma review_example_witness :
  exists response s' payload,
    execute_tool sample_world review_request initial_state = (Ok response, s')
    /\ ToolExecutionResponse.success response = true
    /\ ToolExecutionResponse.toolName response = "pythonCodeReview"%string
    /\ ToolExecutionResponse.result response = Some (JDict payload)
    /\ dict_get payload "review" JNull = JStr "Looks fine."
    /\ dict_get payload "language" JNull = JStr "python"
    /\ dict_get payload "codeLength" JNull = JInt 3.
Proof.
  exact (review_example sample_world initial_state
           (after_construction initial_state) (mkClient 0) sample_response
           eq_refl eq_refl).
Defined.

(** C7, the claim as stated, fails: in the sample world the review example
    succeeds, and the codeLength of its result is 3, not 4. *)
Lemma review_example_code_length_is_3 :
  exists response s' payload,
    execute_tool sample_world review_request initial_state = (Ok response, s')
    /\ ToolExecutionResponse.success response = true
    /\ ToolExecutionResponse.result response = Some (JDict payload)
    /\ dict_get payload "codeLength" JNull = JInt 3
    /\ dict_get payload "codeLength" JNull <> JInt 4.
Proof.
  eexists _, _, _. split; [reflexivity |].
  repeat split. discriminate.
Qed.

(** C8. A tool name that is none of the two repository-analysis names and
    not the code-review name is not rejected.  Once the accessor has handed
    out the client, [execute_tool] delegates exactly one [simple_chat]: its
    message is the "Help with this development task" prompt, which embeds
    the tool name and [json.dumps(input, indent=2)]; its model is the
    default model of the chat endpoints; its temperature, 0.7, is higher
    than the 0.3 and 0.2 of the two other branches.  When the client answers,
    the response has success true and its result carries the answer as
    content. *)
Theorem unknown_tool_gets_general_assistance
    (W : World) (request : ToolExecutionRequest.t) (s s1 : State)
    (client : ZAIClient) :
  let tool_name := ToolExecutionRequest.toolName request in
  let tool_input := ToolExecutionRequest.input request in
  let prompt :=
    ("Help with this development task: Execute " ++ tool_name
       ++ " with parameters: " ++ json_dumps_indent2 W (JDict tool_input)
       ++ ". Please provide practical assistance and guidance.")%string in
  let delegation :=
    mkCall "simple_chat"
      [("message", JStr prompt);
       ("model", JStr "glm-4.5v");
       ("enable_thinking", JBool false);
       ("temperature", JFloat 0.7)] in
  str_in tool_name
    ["pythonAnalyzeRepository"; "analyzeRepositoryStructure";
     "pythonCodeReview"]%string = false ->
  get_zai_client W s = (Ok (Some client), s1) ->
  calls (snd (execute_tool W request s)) = calls s1 ++ [delegation]
  /\ (forall answer,
        simple_chat W (calls s1) (kwargs delegation) = Ok answer ->
        exists response s',
          execute_tool W request s = (Ok response, s')
          /\ ToolExecutionResponse.success response = true
          /\ ToolExecutionResponse.toolName response = tool_name
          /\ ToolExecutionResponse.error response = None
          /\ ToolExecutionResponse.result response
             = Some (JDict [("success", JBool true);
                            ("content", JStr (Response.content answer));
                            ("model", JStr "glm-4.5v");
                            ("timestamp", JFloat (loop_time W (clock_reads s1)))]))
  /\ dict_get (kwargs delegation) "model" JNull
     = GenConfig.model (extract_config [])
  /\ (forall p q,
        PrimFloat.ltb (temperature_of (analysis_kwargs p))
          (temperature_of (kwargs delegation)) = true
        /\ PrimFloat.ltb (temperature_of (review_kwargs q))
             (temperature_of (kwargs delegation)) = true).
Proof.
  intros tool_name tool_input prompt delegation Hname Hclient.
  assert (Hprompt : assist_prompt W tool_name tool_input = prompt).
  { subst prompt. unfold assist_prompt, tool_description.
    rewrite !string_app_assoc. reflexivity. }
  assert (Hbranch :
    (if str_in tool_name ["pythonAnalyzeRepository"; "analyzeRepositoryStructure"]%string
     then analyze_repository W (Some client) tool_input
     else if str_in tool_name ["pythonCodeReview"]%string
     then code_review W (Some client) tool_input
     else general_assistance W (Some client) tool_name tool_input)
    = general_assistance W (Some client) tool_name tool_input).
  { unfold str_in in *. simpl in *.
    destruct (String.eqb tool_name "pythonAnalyzeRepository"); [discriminate |].
    destruct (String.eqb tool_name "analyzeRepositoryStructure"); [discriminate |].
    destruct (String.eqb tool_name "pythonCodeReview"); [discriminate |].
    reflexivity. }
  assert (Hrun : general_assistance W (Some client) tool_name tool_input s1
                 = bind (lift (simple_chat W (calls s1) (kwargs delegation)))
                     (fun response =>
                      bind (now W) (fun t =>
                        ret [("success", JBool true);
                             ("content", JStr (Response.content response));
                             ("model", JStr "glm-4.5v");
                             ("timestamp", JFloat t)]))
                     (mkState (zai_client s1) (calls s1 ++ [delegation])
                        (constructed s1) (clock_reads s1))).
  { unfold general_assistance. unfold bind at 1. rewrite invoke_some.
    unfold assist_kwargs. rewrite Hprompt. unfold bind at 2, lift.
    reflexivity. }
  split; [| split; [| split]].
  - unfold execute_tool. rewrite snd_try_except_ret, snd_bind, Hclient.
    fold tool_name tool_input. rewrite Hbranch, snd_bind, Hrun.
    unfold bind, lift, now, ret.
    destruct (simple_chat W (calls s1) (kwargs delegation)); reflexivity.
  - intros answer Hanswer. eexists _, _. split.
    + eapply execute_tool_delegated; [exact Hclient | exact Hbranch |].
      fold tool_name tool_input. rewrite Hrun.
      unfold bind at 1, lift. rewrite Hanswer. reflexivity.
    + repeat split.
  - reflexivity.
  - intros p q. split; reflexivity.
Qed.

Lemma unknown_tool_gets_general_assistance_witness :
  calls (snd (execute_tool sample_world search_request initial_state))
  = [mkCall "ZAIClient" [("auto_auth", JBool true)];
     mkCall "simple_chat"
       [("message",
         JStr "Help with this development task: Execute searchRepositoryFiles with parameters: {}. Please provide practical assistance and guidance.");
        ("model", JStr "glm-4.5v");
        ("enable_thinking", JBool false);
        ("temperature", JFloat 0.7)]]
  /\ exists response s',
       execute_tool sample_world search_request initial_state = (Ok response, s')
       /\ ToolExecutionResponse.success response = true
       /\ ToolExecutionResponse.result response
          = Some (JDict [("success", JBool true);
                         ("content", JStr "Looks fine.");
                         ("model", JStr "glm-4.5v");
                         ("timestamp", JFloat 12.5)]).
Proof.
  destruct (unknown_tool_gets_general_assistance sample_world search_request
              initial_state (after_construction initial_state) (mkClient 0)
              eq_refl eq_refl) as (Hcalls & Hanswer & _).
  split; [exact Hcalls |].
  destruct (Hanswer sample_response eq_refl)
    as (response & s' & Hrun & Hsuccess & _ & _ & Hresult).
  exists response, s'. repeat split; assumption.
Defined.

(** ** The life of the client *)

Lemma preserves_ret {A} (a : A) : preserves (ret a).
Proof. intros s. repeat split. Qed.

Lemma preserves_raise {A} (e : exn) : preserves (@raise A e).
Proof. intros s. repeat split. Qed.

Lemma preserves_lift {A} (r : result A) : preserves (lift r).
Proof. intros s. repeat split. Qed.

Lemma preserves_now (W : World) : preserves (now W).
Proof. intros s. repeat split. Qed.

Lemma preserves_bind {A B} (m : M A) (k : A -> M B) :
  preserves m -> (forall a, preserves (k a)) -> preserves (bind m k).
Proof.
  intros Hm Hk s. unfold bind. specialize (Hm s).
  destruct (m s) as [[a | e] s1]; simpl in *.
  - destruct (Hk a s1) as (H1 & H2 & H3), Hm as (H4 & H5 & H6).
    repeat split; congruence.
  - exact Hm.
Qed.

Lemma preserves_try_except {A} (body : M A) (handler : exn -> M A) :
  preserves body -> (forall e, preserves (handler e)) ->
  preserves (try_except body handler).
Proof.
  intros Hm Hk s. unfold try_except. specialize (Hm s).
  destruct (body s) as [[a | e] s1]; simpl in *.
  - exact Hm.
  - destruct (Hk e s1) as (H1 & H2 & H3), Hm as (H4 & H5 & H6).
    repeat split; congruence.
Qed.

Lemma preserves_if {A} (b : bool) (m1 m2 : M A) :
  preserves m1 -> preserves m2 -> preserves (if b then m1 else m2).
Proof. now destruct b. Qed.

Lemma constructor_calls_other (s : State) (name : string) (kw : dict) :
  String.eqb name "ZAIClient" = false ->
  constructor_calls
    (mkState (zai_client s) (calls s ++ [mkCall name kw]) (constructed s)
       (clock_reads s))
  = constructor_calls s.
Proof.
  intros H. unfold constructor_calls. simpl.
  rewrite filter_app, length_app. simpl.
  unfold is_constructor_call at 2. simpl. rewrite H. simpl. lia.
Qed.

Lemma preserves_invoke {A} (client : option ZAIClient) (name : string)
    (answer : list Call -> dict -> result A) (kw : dict) :
  String.eqb name "ZAIClient" = false ->
  preserves (invoke client name answer kw).
Proof.
  intros H s. destruct client as [c |].
  - rewrite invoke_some. simpl. repeat split.
    now apply constructor_calls_other.
  - repeat split.
Qed.

Create HintDb preserves.
#[local] Hint Resolve preserves_ret preserves_raise preserves_lift preserves_now
  preserves_bind preserves_try_except preserves_if preserves_invoke : preserves.
#[local] Hint Extern 1 (String.eqb _ _ = false) => reflexivity : preserves.

Lemma preserves_apply_preset (W : World) (config : dict) (g : GenConfig.t) :
  preserves (apply_preset W config g).
Proof.
  unfold apply_preset. auto 20 with preserves.
Qed.

Lemma preserves_single_user_message (messages : list dict) :
  preserves (single_user_message messages).
Proof. unfold single_user_message. auto 10 with preserves. Qed.

Lemma preserves_initial_message (messages : list dict) :
  preserves (initial_message messages).
Proof. destruct messages; simpl; auto 10 with preserves. Qed.

Lemma preserves_chat_id_of (chat default : Json) :
  preserves (chat_id_of chat default).
Proof. unfold chat_id_of. auto with preserves. Qed.

#[local] Hint Resolve preserves_apply_preset preserves_single_user_message
  preserves_initial_message preserves_chat_id_of : preserves.

Lemma preserves_open_stream (W : World) (c : Closure) :
  preserves (open_stream W c).
Proof. unfold open_stream. auto 20 with preserves. Qed.

Lemma preserves_analyze_repository (W : World) (client : option ZAIClient)
    (tool_input : dict) :
  preserves (analyze_repository W client tool_input).
Proof. unfold analyze_repository. auto 20 with preserves. Qed.

Lemma preserves_code_review (W : World) (client : option ZAIClient)
    (tool_input : dict) :
  preserves (code_review W client tool_input).
Proof. unfold code_review. auto 20 with preserves. Qed.

Lemma preserves_general_assistance (W : World) (client : option ZAIClient)
    (tool_name : string) (tool_input : dict) :
  preserves (general_assistance W client tool_name tool_input).
Proof. unfold general_assistance. auto 20 with preserves. Qed.

#[local] Hint Resolve preserves_open_stream preserves_analyze_repository
  preserves_code_review preserves_general_assistance : preserves.

Lemma client_step_refl (s : State) : client_step s s.
Proof.
  unfold client_step. destruct (zai_client s); [repeat split | left; split];
    reflexivity.
Qed.

Lemma client_step_trans (s1 s2 s3 : State) :
  client_step s1 s2 -> client_step s2 s3 -> client_step s1 s3.
Proof.
  unfold client_step. intros H12 H23.
  destruct (zai_client s1) as [c |].
  - destruct H12 as (H1 & H2 & H3). rewrite H1 in H23.
    destruct H23 as (H4 & H5 & H6). repeat split; congruence.
  - destruct H12 as [(H1 & H2) | (c & H1 & H2)]; rewrite H1 in H23.
    + destruct H23 as [(H4 & H5) | (c & H4 & H5)].
      * left. split; congruence.
      * right. exists c. split; congruence.
    + destruct H23 as (H4 & H5 & H6). right. exists c. split; congruence.
Qed.

Lemma preserves_step {A} (m : M A) (s : State) :
  preserves m -> client_step s (snd (m s)).
Proof.
  intros H. destruct (H s) as (H1 & H2 & H3). unfold client_step.
  destruct (zai_client s); [repeat split | left; split]; assumption.
Qed.

Lemma get_zai_client_step (W : World) (s : State) :
  client_step s (snd (get_zai_client W s)).
Proof.
  unfold client_step. destruct (zai_client s) as [c |] eqn:H.
  - rewrite (get_zai_client_present W s c H). simpl. now rewrite H.
  - rewrite (get_zai_client_absent W s H).
    destruct (ZAIClient_new W (calls s)).
    + right. eexists. split; reflexivity.
    + left. split; reflexivity.
Qed.

(** a handler: the accessor first, then code that leaves the client alone *)
Lemma handler_step {A B} (W : World) (k : option ZAIClient -> M B)
    (wrap : M B -> M A) (s : State) :
  (forall c, preserves (k c)) ->
  (forall m s0, client_step s0 (snd (m s0)) -> client_step s0 (snd (wrap m s0))) ->
  client_step s (snd (wrap (bind (get_zai_client W) k) s)).
Proof.
  intros Hk Hwrap. apply Hwrap. rewrite snd_bind.
  pose proof (get_zai_client_step W s) as Hstep.
  destruct (get_zai_client W s) as [[client | e] s1]; simpl in Hstep.
  - eapply client_step_trans; [exact Hstep |]. now apply preserves_step.
  - exact Hstep.
Qed.

Lemma try_except_step {A} (handler : exn -> M A) (m : M A) (s : State) :
  (forall e, preserves (handler e)) ->
  client_step s (snd (m s)) ->
  client_step s (snd (try_except m handler s)).
Proof.
  intros Hh Hm. unfold try_except.
  destruct (m s) as [[a | e] s1]; simpl in *.
  - exact Hm.
  - eapply client_step_trans; [exact Hm |]. now apply preserves_step.
Qed.

Lemma perform_step (W : World) (op : operation) (s : State) :
  client_step s (perform W op s).
Proof.
  destruct op as [| | | request | request fuel | request]; simpl.
  - unfold startup_event.
    apply (handler_step W (fun _ => ret tt) (fun m => try_except m (fun e => ret tt))).
    + auto with preserves.
    + intros m s0. apply try_except_step. auto with preserves.
  - unfold health_check.
    match goal with
    | |- context [ try_except (bind _ ?k) ?h ] =>
      apply (handler_step W k (fun m => try_except m h))
    end.
    + auto 10 with preserves.
    + intros m s0. apply try_except_step. auto 10 with preserves.
  - apply preserves_step. unfold list_tools. auto with preserves.
  - unfold chat_completion.
    match goal with
    | |- context [ try_except (bind _ ?k) ?h ] =>
      apply (handler_step W k (fun m => try_except m h))
    end.
    + auto 30 with preserves.
    + intros m s0. apply try_except_step. auto with preserves.
  - assert (Hstep : client_step s (snd (chat_stream W request s))).
    { unfold chat_stream.
      match goal with
      | |- context [ try_except (bind _ ?k) ?h ] =>
        apply (handler_step W k (fun m => try_except m h))
      end.
      - auto with preserves.
      - intros m s0. apply try_except_step. auto with preserves. }
    destruct (chat_stream W request s) as [[response | e] s1]; simpl in Hstep.
    + eapply client_step_trans; [exact Hstep |].
      unfold generate_stream. destruct fuel as [| fuel].
      * apply client_step_refl.
      * pose proof (preserves_step (open_stream W (body response)) s1
                      (preserves_open_stream W _)) as Hopen.
        destruct (open_stream W (body response) s1) as [[src | e] s2];
          simpl in Hopen.
        -- now destruct (stream_loop W src (S fuel) 0) as [evs [| | e]].
        -- exact Hopen.
    + exact Hstep.
  - unfold execute_tool.
    match goal with
    | |- context [ try_except (bind _ ?k) ?h ] =>
      apply (handler_step W k (fun m => try_except m h))
    end.
    + auto 30 with preserves.
    + intros m s0. apply try_except_step. auto 10 with preserves.
Qed.

Lemma run_step (W : World) (ops : list operation) (s : State) :
  client_step s (run W ops s).
Proof.
  revert s. induction ops as [| op ops IH]; intros s; simpl.
  - apply client_step_refl.
  - eapply client_step_trans; [apply perform_step | apply IH].
Qed.

Lemma one_client_step (s s' : State) :
  one_client s -> client_step s s' -> one_client s'.
Proof.
  unfold one_client, client_step. intros Hs Hstep.
  destruct (zai_client s) as [c |].
  - destruct Hstep as (H1 & H2 & _). now rewrite H1, H2.
  - destruct Hstep as [(H1 & H2) | (c & H1 & H2)]; rewrite H1, H2, Hs;
      reflexivity.
Qed.

(** C9. At most one client instance.  In every state the process can
    reach, the instances ever constructed are exactly the one the global
    holds, if any.  While the global is empty, a call to the accessor calls
    the constructor and, when it succeeds, stores the new instance.  From
    then on, whatever operations follow, the global holds that same
    instance, the accessor returns it without touching the state, and the
    constructor is not called again. *)
Theorem single_client_instance (W : World) (ops more : list operation) :
  let s := run W ops initial_state in
  let s' := run W more s in
  one_client s
  /\ List.length (constructed s) <= 1
  /\ (zai_client s = None ->
      calls (snd (get_zai_client W s))
      = calls s ++ [mkCall "ZAIClient" [("auto_auth", JBool true)]]
      /\ (ZAIClient_new W (calls s) = Ok tt ->
          exists c, zai_client (snd (get_zai_client W s)) = Some c
                    /\ constructed (snd (get_zai_client W s)) = [c]))
  /\ (forall c, zai_client s = Some c ->
        zai_client s' = Some c
        /\ constructed s' = [c]
        /\ constructor_calls s' = constructor_calls s
        /\ get_zai_client W s' = (Ok (Some c), s')).
Proof.
  intros s s'.
  assert (Hone : one_client s).
  { apply (one_client_step initial_state); [reflexivity | apply run_step]. }
  split; [exact Hone |]. split; [| split].
  - unfold one_client in Hone. rewrite Hone.
    destruct (zai_client s); simpl; lia.
  - intros Hnone. rewrite (get_zai_client_absent W s Hnone).
    unfold one_client in Hone. rewrite Hnone in Hone. split.
    + now destruct (ZAIClient_new W (calls s)).
    + intros ->. eexists. split; [reflexivity |]. simpl. now rewrite Hone.
  - intros c Hsome.
    pose proof (run_step W more s) as Hstep. fold s' in Hstep.
    unfold client_step in Hstep. rewrite Hsome in Hstep.
    destruct Hstep as (H1 & H2 & H3).
    unfold one_client in Hone. rewrite Hsome in Hone.
    repeat split; try congruence.
    now apply get_zai_client_present.
Qed.

Lemma single_client_instance_witness :
  let s := run sample_world [Startup] initial_state in
  let s' := run sample_world sample_day s in
  zai_client s' = Some (mkClient 0)
  /\ constructed s' = [mkClient 0]
  /\ constructor_calls s' = constructor_calls s
  /\ get_zai_client sample_world s' = (Ok (Some (mkClient 0)), s').
Proof.
  exact (proj2 (proj2 (proj2 (single_client_instance sample_world [Startup]
                                sample_day)))
           (mkClient 0) eq_refl).
Defined.

(** ** The health probe *)

(** C10 (as amended). The health probe goes through the accessor.  It
    always answers; [client_ready] is true exactly when the client exists
    once the probe has run, and the field is missing, with status
    "unhealthy" and an error text, exactly when it does not.  A client that
    existed before the probe is left in place and nothing is called.  A
    client that did not exist is constructed by the probe, and exists
    afterwards exactly when that construction succeeded. *)
Theorem health_check_reports_accessor (W : World) (s : State) :
  exists answer s',
    health_check W s = (Ok answer, s')
    /\ (dict_get answer "client_ready" JNull = JBool true <-> zai_client s' <> None)
    /\ (dict_has answer "client_ready" = false <-> zai_client s' = None)
    /\ (zai_client s' = None ->
        dict_get answer "status" JNull = JStr "unhealthy"
        /\ dict_has answer "error" = true)
    /\ (forall c, zai_client s = Some c ->
          zai_client s' = Some c /\ calls s' = calls s
          /\ constructed s' = constructed s)
    /\ (zai_client s = None ->
        calls s' = calls s ++ [mkCall "ZAIClient" [("auto_auth", JBool true)]]
        /\ (zai_client s' <> None <-> ZAIClient_new W (calls s) = Ok tt)).
Proof.
  unfold health_check, try_except. unfold bind at 1.
  destruct (zai_client s) as [c |] eqn:Hclient.
  - rewrite (get_zai_client_present W s c Hclient).
    eexists _, _. split; [reflexivity |]. simpl. rewrite Hclient.
    repeat split; try discriminate; try congruence.
  - rewrite (get_zai_client_absent W s Hclient).
    destruct (ZAIClient_new W (calls s)) as [[] | e].
    + eexists _, _. split; [reflexivity |]. simpl.
      repeat split; try discriminate; try congruence.
    + eexists _, _. split; [reflexivity |]. simpl.
      repeat split; try discriminate; try congruence.
Qed.

(** C10, the claim as stated, fails: in the sample world, probing the
    freshly loaded process, where no client exists yet, constructs the
    client and answers [client_ready] true. *)
Lemma health_check_constructs_the_client :
  exists answer s',
    health_check sample_world initial_state = (Ok answer, s')
    /\ zai_client initial_state = None
    /\ dict_get answer "client_ready" JNull = JBool true
    /\ zai_client s' = Some (mkClient 0)
    /\ ~ probe_is_passive sample_world initial_state.
Proof.
  eexists _, _. split; [reflexivity |]. repeat split.
  intros (answer & s' & Hrun & Hready & Hsame).
  inversion Hrun; subst answer s'.
  destruct Hready as [Hready _]. now apply Hready.
Qed.

Example health_check_offline :
  fst (health_check offline_world initial_state)
  = Ok [("status", JStr "unhealthy");
        ("error", JStr "authentication failed");
        ("timestamp", JFloat 12.5)].
Proof. reflexivity. Qed.

(** * Further properties of the handlers *)

(** ** The dispatcher *)

Lemma calls_bind_now {A B} (W : World) (m : M A) (f : A -> float -> B) (s : State) :
  calls (snd (bind m (fun a => bind (now W) (fun t => ret (f a t))) s))
  = calls (snd (m s)).
Proof.
  unfold bind, now, ret. now destruct (m s) as [[a | e] s'].
Qed.

(** The three branches all start with the one call on the client. *)
Lemma dispatch_delegates (W : World) (request : ToolExecutionRequest.t)
    (client : ZAIClient) (s1 : State) :
  let branch :=
    if str_in (ToolExecutionRequest.toolName request)
         ["pythonAnalyzeRepository"; "analyzeRepositoryStructure"]%string
    then analyze_repository W (Some client) (ToolExecutionRequest.input request)
    else if str_in (ToolExecutionRequest.toolName request) ["pythonCodeReview"]%string
    then code_review W (Some client) (ToolExecutionRequest.input request)
    else general_assistance W (Some client)
           (ToolExecutionRequest.toolName request)
           (ToolExecutionRequest.input request) in
  let delegation := mkCall "simple_chat" (delegation_kwargs W request) in
  calls (snd (branch s1)) = calls s1 ++ [delegation]
  /\ forall cause,
       simple_chat W (calls s1) (delegation_kwargs W request) = Raised cause ->
       branch s1 = (Raised cause, after_call s1 delegation).
Proof.
  unfold delegation_kwargs. cbv zeta.
  destruct (str_in (ToolExecutionRequest.toolName request)
              ["pythonAnalyzeRepository"; "analyzeRepositoryStructure"]%string).
  - unfold analyze_repository. split.
    + rewrite snd_bind, invoke_some.
      destruct (simple_chat W (calls s1) _) as [answer | e]; [| reflexivity].
      unfold bind, now, lift, ret. simpl.
      now destruct (tokens_used answer).
    + intros cause H. unfold bind at 1. rewrite invoke_some, H. reflexivity.
  - destruct (str_in (ToolExecutionRequest.toolName request)
                ["pythonCodeReview"]%string).
    + unfold code_review. split.
      * rewrite snd_bind, invoke_some.
        destruct (simple_chat W (calls s1) _) as [answer | e]; [| reflexivity].
        unfold bind, now, lift, ret. simpl.
        now destruct (py_len _).
      * intros cause H. unfold bind at 1. rewrite invoke_some, H. reflexivity.
    + unfold general_assistance. split.
      * rewrite snd_bind, invoke_some.
        now destruct (simple_chat W (calls s1) _) as [answer | e].
      * intros cause H. unfold bind at 1. rewrite invoke_some, H. reflexivity.
Qed.

(** X1. Whatever the tool name and the input, once the accessor has handed
    out the client [execute_tool] makes exactly one call on it, a
    [simple_chat] (never a session), whether that call succeeds or raises.
    The analysis and review branches use the model "0727-360B-API" with
    thinking enabled, every other name the model "glm-4.5v" with thinking
    disabled. *)
Theorem execute_tool_single_call
    (W : World) (request : ToolExecutionRequest.t) (s s1 : State)
    (client : ZAIClient) :
  get_zai_client W s = (Ok (Some client), s1) ->
  let kw := delegation_kwargs W request in
  let special :=
    str_in (ToolExecutionRequest.toolName request)
      ["pythonAnalyzeRepository"; "analyzeRepositoryStructure";
       "pythonCodeReview"]%string in
  calls (snd (execute_tool W request s)) = calls s1 ++ [mkCall "simple_chat" kw]
  /\ dict_get kw "model" JNull
     = JStr (if special then "0727-360B-API" else "glm-4.5v")
  /\ dict_get kw "enable_thinking" JNull = JBool special
  /\ dict_has kw "top_p" = false
  /\ dict_has kw "max_tokens" = false.
Proof.
  intros Hclient kw special. split.
  - unfold execute_tool.
    rewrite snd_try_except_ret, snd_bind, Hclient, calls_bind_now.
    apply (dispatch_delegates W request client s1).
  - subst kw special. unfold delegation_kwargs, str_in. simpl.
    destruct (String.eqb (ToolExecutionRequest.toolName request)
                "pythonAnalyzeRepository");
      destruct (String.eqb (ToolExecutionRequest.toolName request)
                  "analyzeRepositoryStructure");
      destruct (String.eqb (ToolExecutionRequest.toolName request)
                  "pythonCodeReview");
      repeat split.
Qed.

Lemma execute_tool_single_call_witness :
  map method (calls (snd (execute_tool sample_world analysis_request initial_state)))
  = ["ZAIClient"; "simple_chat"]%string.
Proof.
  pose proof (proj1 (execute_tool_single_call sample_world analysis_request
                       initial_state (after_construction initial_state)
                       (mkClient 0) eq_refl)) as H.
  rewrite H. reflexivity.
Defined.

(** X2. When the one call on the client raises, [execute_tool] answers a
    failure whose error text is the text of that exception; the call is not
    repeated and nothing else is called. *)
Theorem execute_tool_reports_cause
    (W : World) (request : ToolExecutionRequest.t) (s s1 : State)
    (client : ZAIClient) (cause : exn) :
  get_zai_client W s = (Ok (Some client), s1) ->
  simple_chat W (calls s1) (delegation_kwargs W request) = Raised cause ->
  execute_tool W request s
  = (Ok (ToolExecutionResponse.Build false
           (ToolExecutionRequest.toolName request) None
           (Some (exn_str cause)) (loop_time W (clock_reads s1))),
     after_reads
       (after_call s1 (mkCall "simple_chat" (delegation_kwargs W request))) 1).
Proof.
  intros Hclient Hcause. unfold execute_tool, try_except.
  unfold bind at 1. rewrite Hclient. unfold bind at 1.
  rewrite (proj2 (dispatch_delegates W request client s1) cause Hcause).
  reflexivity.
Qed.

Lemma execute_tool_reports_cause_witness :
  fst (execute_tool (world_answering (Raised (Exception "quota exceeded")))
         search_request initial_state)
  = Ok (ToolExecutionResponse.Build false "searchRepositoryFiles" None
          (Some "quota exceeded"%string) 12.5).
Proof.
  now rewrite (execute_tool_reports_cause
                 (world_answering (Raised (Exception "quota exceeded")))
                 search_request initial_state
                 (after_construction initial_state) (mkClient 0)
                 (Exception "quota exceeded") eq_refl eq_refl).
Defined.

(** ** When the client cannot be constructed *)

(** X3. A process without a client whose construction fails with [cause]:
    every endpoint that needs the client calls the constructor once and
    nothing else, and leaves the global empty.  [execute_tool] answers a
    failure with the text of [cause]; [chat_completion] and [chat_stream]
    raise an HTTP 500 whose detail ends with that text; the startup hook
    swallows the exception. *)
Theorem construction_failure_surfaces
    (W : World) (s : State) (cause : exn)
    (tool : ToolExecutionRequest.t) (chat : ChatRequest.t) :
  zai_client s = None ->
  ZAIClient_new W (calls s) = Raised cause ->
  let s1 := after_failed_construction s in
  execute_tool W tool s
  = (Ok (ToolExecutionResponse.Build false (ToolExecutionRequest.toolName tool)
           None (Some (exn_str cause)) (loop_time W (clock_reads s))),
     after_reads s1 1)
  /\ chat_completion W chat s
     = (Raised (HTTPException 500
                  ("Chat completion failed: " ++ exn_str cause)%string), s1)
  /\ chat_stream W chat s
     = (Raised (HTTPException 500
                  ("Streaming failed: " ++ exn_str cause)%string), s1)
  /\ startup_event W s = (Ok tt, s1)
  /\ zai_client s1 = None
  /\ calls s1 = calls s ++ [mkCall "ZAIClient" [("auto_auth", JBool true)]].
Proof.
  intros Hnone Hcause s1.
  pose proof (get_zai_client_absent W s Hnone) as Hget.
  rewrite Hcause in Hget.
  repeat split.
  - unfold execute_tool, try_except. unfold bind at 1. now rewrite Hget.
  - unfold chat_completion, try_except. unfold bind at 1. now rewrite Hget.
  - unfold chat_stream, try_except. unfold bind at 1. now rewrite Hget.
  - unfold startup_event, try_except. unfold bind at 1. now rewrite Hget.
Qed.

Lemma construction_failure_surfaces_witness :
  fst (chat_completion offline_world greeting initial_state)
  = Raised (HTTPException 500 "Chat completion failed: authentication failed")
  /\ fst (chat_stream offline_world greeting initial_state)
     = Raised (HTTPException 500 "Streaming failed: authentication failed").
Proof.
  destruct (construction_failure_surfaces offline_world initial_state
              (Exception "authentication failed") review_request greeting
              eq_refl eq_refl) as (_ & Hchat & Hstream & _).
  rewrite Hchat, Hstream. split; reflexivity.
Defined.

(** X4. A failed construction is not remembered.  After a startup whose
    construction failed, the next call of the accessor calls the constructor
    again; when it now succeeds the global holds the new instance, the only
    one ever constructed, and the constructor has been called twice. *)
Theorem startup_failure_recovers (W : World) (s : State) (cause : exn) :
  zai_client s = None ->
  constructed s = [] ->
  ZAIClient_new W (calls s) = Raised cause ->
  ZAIClient_new W (calls s ++ [mkCall "ZAIClient" [("auto_auth", JBool true)]])
  = Ok tt ->
  let s1 := snd (startup_event W s) in
  let c := mkClient (S (List.length (calls s))) in
  exists s2,
    get_zai_client W s1 = (Ok (Some c), s2)
    /\ zai_client s2 = Some c
    /\ constructed s2 = [c]
    /\ constructor_calls s2 = 2 + constructor_calls s.
Proof.
  intros Hnone Hfresh Hcause Hlater s1 c.
  assert (Hs1 : s1 = after_failed_construction s).
  { subst s1. unfold startup_event, try_except. unfold bind at 1.
    rewrite (get_zai_client_absent W s Hnone), Hcause. reflexivity. }
  rewrite Hs1.
  rewrite (get_zai_client_absent W (after_failed_construction s) eq_refl).
  simpl calls. rewrite Hlater.
    assert (Hc : mkClient (List.length
                  (calls s ++ [mkCall "ZAIClient" [("auto_auth", JBool true)]]))
               = c).
  { subst c. now rewrite length_app, Nat.add_comm. }
  eexists. split; [rewrite Hc; reflexivity |].
    split; [exact (f_equal Some Hc) |]. split.
  - unfold after_construction, after_failed_construction.
    cbn [constructed calls]. now rewrite Hfresh, Hc.
  - unfold constructor_calls, after_construction, after_failed_construction.
    cbn [calls]. rewrite !filter_app, !length_app. simpl. lia.
Qed.

Lemma startup_failure_recovers_witness :
  exists s2,
    get_zai_client flaky_world (snd (startup_event flaky_world initial_state))
    = (Ok (Some (mkClient 1)), s2)
    /\ zai_client s2 = Some (mkClient 1)
    /\ constructed s2 = [mkClient 1]
    /\ constructor_calls s2 = 2.
Proof.
  exact (startup_failure_recovers flaky_world initial_state
           (Exception "authentication failed") eq_refl eq_refl eq_refl eq_refl).
Defined.

(** ** Repository analysis *)

(** X5. Repository analysis, for either of its two tool names, once the
    client is handed out and answers.  When the answer's [usage] is not
    [None] the response is a success; its result names the repository as
    owner/repo (both empty when the input has neither key), echoes the
    analysis type ("structure" when the input has none), carries the answer
    as analysis and, as tokens used, the answer's [total_tokens], or 0 when
    the answer has no [usage] attribute or no such entry.  When [usage] is
    [None] the response is a failure, although the client has answered. *)
Theorem repository_analysis_result
    (W : World) (request : ToolExecutionRequest.t) (s s1 : State)
    (client : ZAIClient) (answer : Response.t) :
  let tool_name := ToolExecutionRequest.toolName request in
  let tool_input := ToolExecutionRequest.input request in
  let owner := dict_get tool_input "owner" (JStr "") in
  let repo := dict_get tool_input "repo" (JStr "") in
  let analysis_type := dict_get tool_input "analysisType" (JStr "structure") in
  let delegation :=
    mkCall "simple_chat"
      (analysis_kwargs (analysis_prompt W owner repo analysis_type)) in
  let s2 := after_call s1 delegation in
  let payload tokens :=
    [("success", JBool true);
     ("source", JStr "zai-python-sdk");
     ("repository", JStr (fmt W owner ++ "/" ++ fmt W repo)%string);
     ("analysisType", analysis_type);
     ("analysis", JStr (Response.content answer));
     ("thinking", match Response.thinking answer with
                  | Some t => JStr t
                  | None => JNull
                  end);
     ("model", JStr "0727-360B-API");
     ("metadata", JDict [("timestamp", JFloat (loop_time W (clock_reads s1)));
                         ("tokensUsed", tokens)])] in
  str_in tool_name ["pythonAnalyzeRepository"; "analyzeRepositoryStructure"]%string
  = true ->
  get_zai_client W s = (Ok (Some client), s1) ->
  simple_chat W (calls s1) (kwargs delegation) = Ok answer ->
  execute_tool W request s
  = match Response.usage answer with
    | UsageMissing =>
      (Ok (ToolExecutionResponse.Build true tool_name
             (Some (JDict (payload (JInt 0)))) None
             (loop_time W (S (clock_reads s1)))),
       after_reads s2 2)
    | UsageDict d =>
      (Ok (ToolExecutionResponse.Build true tool_name
             (Some (JDict (payload (dict_get d "total_tokens" (JInt 0))))) None
             (loop_time W (S (clock_reads s1)))),
       after_reads s2 2)
    | UsageNone =>
      (Ok (ToolExecutionResponse.Build false tool_name None
             (Some "'NoneType' object has no attribute 'get'"%string)
             (loop_time W (S (clock_reads s1)))),
       after_reads s2 2)
    end.
Proof.
  intros tool_name tool_input owner repo analysis_type delegation s2 payload
    Hname Hclient Hanswer.
  unfold execute_tool, try_except. unfold bind at 1. rewrite Hclient.
  fold tool_name tool_input. rewrite Hname.
  unfold bind at 1. unfold analyze_repository. unfold bind at 1.
  rewrite invoke_some.
  change (simple_chat W (calls s1) _)
    with (simple_chat W (calls s1) (kwargs delegation)).
  rewrite Hanswer. unfold bind, now, lift, ret, tokens_used, thinking_or_none.
  destruct (Response.usage answer); reflexivity.
Qed.

Lemma repository_analysis_result_witness :
  (exists payload,
     fst (execute_tool (world_answering (Ok metered_response)) analysis_request
            initial_state)
     = Ok (ToolExecutionResponse.Build true "pythonAnalyzeRepository"
             (Some (JDict payload)) None 12.5)
     /\ dict_get payload "repository" JNull = JStr "rocq-prover/rocq"
     /\ dict_get payload "analysisType" JNull = JStr "structure"
     /\ dict_get payload "metadata" JNull
        = JDict [("timestamp", JFloat 12.5); ("tokensUsed", JInt 42)])
  /\ fst (execute_tool (world_answering (Ok unmetered_response)) analysis_request
            initial_state)
     = Ok (ToolExecutionResponse.Build false "pythonAnalyzeRepository" None
             (Some "'NoneType' object has no attribute 'get'"%string) 12.5).
Proof.
  split.
  - rewrite (repository_analysis_result (world_answering (Ok metered_response))
               analysis_request initial_state (after_construction initial_state)
               (mkClient 0) metered_response eq_refl eq_refl eq_refl).
    eexists. repeat split.
  - now rewrite (repository_analysis_result
                   (world_answering (Ok unmetered_response))
                   analysis_request initial_state
                   (after_construction initial_state)
                   (mkClient 0) unmetered_response eq_refl eq_refl eq_refl).
Defined.

(** ** Code review *)

(** X6. Code review, once the client is handed out and answers.  When the
    [code] of the input has a length (a string, a list or a dict; the empty
    string when the key is missing) the response is a success whose result
    carries that length as codeLength, the language ("typescript" when
    missing) and the review type ("comprehensive" when missing).  When it
    has none (null, a boolean or a number) the response is a failure with
    the text of the [TypeError], although the client has answered. *)
Theorem code_review_result
    (W : World) (request : ToolExecutionRequest.t) (s s1 : State)
    (client : ZAIClient) (answer : Response.t) :
  let tool_input := ToolExecutionRequest.input request in
  let code := dict_get tool_input "code" (JStr "") in
  let language := dict_get tool_input "language" (JStr "typescript") in
  let review_type := dict_get tool_input "reviewType" (JStr "comprehensive") in
  let context_info := dict_get tool_input "context" (JStr "") in
  let delegation :=
    mkCall "simple_chat"
      (review_kwargs (review_prompt W code language review_type context_info)) in
  let s2 := after_call s1 delegation in
  ToolExecutionRequest.toolName request = "pythonCodeReview"%string ->
  get_zai_client W s = (Ok (Some client), s1) ->
  simple_chat W (calls s1) (kwargs delegation) = Ok answer ->
  execute_tool W request s
  = match code with
    | JStr _ | JList _ | JDict _ =>
      (Ok (ToolExecutionResponse.Build true "pythonCodeReview"
             (Some (JDict
                [("success", JBool true);
                 ("review", JStr (Response.content answer));
                 ("thinking", match Response.thinking answer with
                              | Some t => JStr t
                              | None => JNull
                              end);
                 ("language", language);
                 ("reviewType", review_type);
                 ("model", JStr "0727-360B-API");
                 ("codeLength",
                  JInt (match code with
                        | JStr text => Z.of_nat (String.length text)
                        | JList items => Z.of_nat (List.length items)
                        | JDict entries => Z.of_nat (List.length entries)
                        | _ => 0
                        end));
                 ("timestamp", JFloat (loop_time W (clock_reads s1)))]))
             None (loop_time W (S (clock_reads s1)))),
       after_reads s2 2)
    | JNull | JBool _ | JInt _ | JFloat _ =>
      (Ok (ToolExecutionResponse.Build false "pythonCodeReview" None
             (Some ("object of type '" ++ type_name code ++ "' has no len()")%string)
             (loop_time W (clock_reads s1))),
       after_reads s2 1)
    end.
Proof.
  intros tool_input code language review_type context_info delegation s2
    Hname Hclient Hanswer.
  unfold execute_tool, try_except. unfold bind at 1. rewrite Hclient.
  rewrite Hname. fold tool_input.
  change (str_in "pythonCodeReview"
            ["pythonAnalyzeRepository"; "analyzeRepositoryStructure"]%string)
    with false.
  change (str_in "pythonCodeReview" ["pythonCodeReview"]%string) with true.
  cbv iota. unfold bind at 1. unfold code_review. unfold bind at 1.
  rewrite invoke_some.
  change (simple_chat W (calls s1) _)
    with (simple_chat W (calls s1) (kwargs delegation)).
  rewrite Hanswer. fold code.
  unfold bind, now, lift, ret, thinking_or_none.
  destruct code; reflexivity.
Qed.

Lemma code_review_result_witness :
  fst (execute_tool sample_world
         (ToolExecutionRequest.Build "pythonCodeReview"
            [("code", JList [JStr "a"; JStr "b"])] None)
         initial_state)
  = Ok (ToolExecutionResponse.Build true "pythonCodeReview"
          (Some (JDict
             [("success", JBool true);
              ("review", JStr "Looks fine.");
              ("thinking", JNull);
              ("language", JStr "typescript");
              ("reviewType", JStr "comprehensive");
              ("model", JStr "0727-360B-API");
              ("codeLength", JInt 2);
              ("timestamp", JFloat 12.5)]))
          None 12.5).
Proof.
  now rewrite (code_review_result sample_world
                 (ToolExecutionRequest.Build "pythonCodeReview"
                    [("code", JList [JStr "a"; JStr "b"])] None)
                 initial_state (after_construction initial_state) (mkClient 0)
                 sample_response eq_refl eq_refl eq_refl).
Defined.

(** X7. The context line of the review prompt.  The idiom
    [context_info and f'Context: ...' or ''] gives the line "Context: "
    followed by the context when the context is true, and the empty line
    when it is false (missing, null, empty, zero or [False]): the prompt
    then has three consecutive line breaks before "Code:". *)
Theorem review_prompt_context_line
    (W : World) (code language review_type context_info : Json) :
  review_prompt W code language review_type context_info
  = lines
      [("Please review this " ++ fmt W language ++ " code with focus on "
          ++ fmt W review_type ++ " aspects:")%string;
       ""%string;
       (if truthy context_info
        then ("Context: " ++ fmt W context_info)%string
        else ""%string);
       ""%string;
       "Code:"%string;
       ("```" ++ fmt W language)%string;
       fmt W code;
       "```"%string;
       ""%string;
       "Please provide:"%string;
       "1. Code quality assessment"%string;
       "2. Security considerations"%string;
       "3. Performance implications  "%string;
       "4. Best practices adherence"%string;
       "5. Specific improvement suggestions"%string;
       "6. Potential bugs or issues"%string;
       ""%string;
       "Be detailed and actionable in your feedback."%string].
Proof.
  unfold review_prompt, py_or, py_and.
  destruct (truthy context_info) eqn:Hcontext.
  - reflexivity.
  - now rewrite Hcontext.
Qed.

(** ** The chat endpoint *)

Lemma apply_preset_model (W : World) (config : dict) (g0 g : GenConfig.t)
    (s s' : State) :
  apply_preset W config g0 s = (Ok g, s') ->
  GenConfig.model g = GenConfig.model g0
  /\ GenConfig.enable_thinking g = GenConfig.enable_thinking g0.
Proof.
  unfold apply_preset.
  destruct (truthy (dict_get config "preset" JNull)).
  - unfold bind at 1, lift at 1.
    destruct (get_preset W (dict_get config "preset" JNull)) as [preset | e];
      [| discriminate].
    destruct (truthy preset).
    + destruct preset; try discriminate.
      unfold bind, lift, ret, method_get. intros H. inversion H. now split.
    + unfold ret. intros H. inversion H. now split.
  - unfold ret. intros H. inversion H. now split.
Qed.

(** what [chat_completion] does for a single user message once the client
    is handed out and the parameters are resolved *)
Lemma single_turn_run
    (W : World) (content : string) (ts : option float) (config : dict)
    (s s1 : State) (client : ZAIClient) (g : GenConfig.t) :
  get_zai_client W s = (Ok (Some client), s1) ->
  apply_preset W config (extract_config config) s1 = (Ok g, s1) ->
  let kw := ("message", JStr content) :: generation_kwargs g in
  chat_completion W
    (ChatRequest.Build [ChatMessage.Build "user" content ts] config) s
  = match simple_chat W (calls s1) kw with
    | Ok answer =>
      match ChatResponse_validate W
              (ChatResponse.Build (Response.content answer)
                 (Response.thinking answer) (GenConfig.model g)
                 (usage_or_none (Response.usage answer))) with
      | Ok response => (Ok response, after_call s1 (mkCall "simple_chat" kw))
      | Raised e =>
        (Raised (HTTPException 500
                   ("Chat completion failed: " ++ exn_str e)%string),
         after_call s1 (mkCall "simple_chat" kw))
      end
    | Raised e =>
      (Raised (HTTPException 500
                 ("Chat completion failed: " ++ exn_str e)%string),
       after_call s1 (mkCall "simple_chat" kw))
    end.
Proof.
  intros Hclient Hpreset kw. unfold chat_completion, try_except.
  unfold bind at 1. rewrite Hclient.
  cbn [ChatRequest.messages ChatRequest.config].
  unfold bind at 1. rewrite Hpreset.
  unfold bind at 1. rewrite to_messages_single.
  change (String.eqb (ChatMessage.role (ChatMessage.Build "user" content ts)) "user")
    with true.
  cbv iota. unfold bind at 1. unfold bind at 1, lift at 1.
  cbn [to_messages map first]. unfold bind at 1, lift at 1.
  cbn [getitem dict_has dict_get ChatMessage.role ChatMessage.content String.eqb
       Ascii.eqb Bool.eqb].
  rewrite invoke_some. fold kw.
  destruct (simple_chat W (calls s1) kw) as [answer | e]; [| reflexivity].
  unfold lift. now destruct (ChatResponse_validate W _).
Qed.

(** X8. A single user message whose [simple_chat] raises: [chat_completion]
    raises an HTTP 500 whose detail is "Chat completion failed: " followed
    by the text of the exception.  The call is not repeated and no session
    is tried instead. *)
Theorem chat_failure_is_http_500
    (W : World) (content : string) (ts : option float) (config : dict)
    (s s1 : State) (client : ZAIClient) (g : GenConfig.t) (cause : exn) :
  get_zai_client W s = (Ok (Some client), s1) ->
  apply_preset W config (extract_config config) s1 = (Ok g, s1) ->
  let delegation :=
    mkCall "simple_chat" (("message", JStr content) :: generation_kwargs g) in
  simple_chat W (calls s1) (kwargs delegation) = Raised cause ->
  chat_completion W
    (ChatRequest.Build [ChatMessage.Build "user" content ts] config) s
  = (Raised (HTTPException 500
               ("Chat completion failed: " ++ exn_str cause)%string),
     after_call s1 delegation).
Proof.
  intros Hclient Hpreset delegation Hcause.
  rewrite (single_turn_run W content ts config s s1 client g Hclient Hpreset).
  cbn [kwargs delegation] in Hcause. now rewrite Hcause.
Qed.

Lemma chat_failure_is_http_500_witness :
  fst (chat_completion (world_answering (Raised (Exception "quota exceeded")))
         greeting initial_state)
  = Raised (HTTPException 500 "Chat completion failed: quota exceeded").
Proof.
    exact (f_equal fst
           (chat_failure_is_http_500
              (world_answering (Raised (Exception "quota exceeded")))
              "hi" None [] initial_state (after_construction initial_state)
              (mkClient 0) (extract_config []) (Exception "quota exceeded")
              eq_refl eq_refl eq_refl)).
Defined.

(** X9. A single user message whose [simple_chat] answers: the
    [ChatResponse] is built from the answer's content and thinking trace,
    from the model of the request's configuration ("glm-4.5v" when it names
    none; a preset never changes it) and from the answer's usage, which is
    absent when the answer has no [usage] attribute or has [None].  When
    pydantic accepts that record as it is, it is the response. *)
Theorem chat_response_fields
    (W : World) (content : string) (ts : option float) (config : dict)
    (s s1 : State) (client : ZAIClient) (g : GenConfig.t) (answer : Response.t) :
  get_zai_client W s = (Ok (Some client), s1) ->
  apply_preset W config (extract_config config) s1 = (Ok g, s1) ->
  simple_chat W (calls s1) (("message", JStr content) :: generation_kwargs g)
  = Ok answer ->
  let built :=
    ChatResponse.Build
      (Response.content answer)
      (Response.thinking answer)
      (dict_get config "model" (JStr "glm-4.5v"))
      (match Response.usage answer with
       | UsageDict d => Some d
       | UsageMissing | UsageNone => None
       end) in
  ChatResponse_validate W built = Ok built ->
  fst (chat_completion W
         (ChatRequest.Build [ChatMessage.Build "user" content ts] config) s)
  = Ok built.
Proof.
  intros Hclient Hpreset Hanswer built Hvalid.
  rewrite (single_turn_run W content ts config s s1 client g Hclient Hpreset).
  cbv zeta. rewrite Hanswer.
  destruct (apply_preset_model W config _ g s1 s1 Hpreset) as [Hmodel _].
  rewrite Hmodel.
  change (ChatResponse.Build _ _ _ _) with built.
  now rewrite Hvalid.
Qed.

Lemma chat_response_fields_witness :
  fst (chat_completion (world_answering (Ok unmetered_response)) greeting
         initial_state)
  = Ok (ChatResponse.Build "Looks fine." (Some "Reading the tree."%string)
          (JStr "glm-4.5v") None).
Proof.
  exact (chat_response_fields (world_answering (Ok unmetered_response))
           "hi" None [] initial_state (after_construction initial_state)
           (mkClient 0) (extract_config []) unmetered_response
           eq_refl eq_refl eq_refl eq_refl).
Defined.

(** X10. A preset that cannot be applied fails the chat request before
    anything is asked of the client.  When the configuration names a preset
    and the resolver raises, or answers a true value that is not a mapping,
    [chat_completion] raises an HTTP 500 with the text of that failure and
    makes no call on the client. *)
Theorem preset_failure_precedes_calls
    (W : World) (request : ChatRequest.t) (s s1 : State) (client : ZAIClient)
    (cause : exn) :
  let name := dict_get (ChatRequest.config request) "preset" JNull in
  get_zai_client W s = (Ok (Some client), s1) ->
  truthy name = true ->
  get_preset W name = Raised cause
  \/ (exists preset,
        get_preset W name = Ok preset
        /\ truthy preset = true
        /\ (forall overrides, preset <> JDict overrides)
        /\ cause = AttributeError preset "get") ->
  chat_completion W request s
  = (Raised (HTTPException 500
               ("Chat completion failed: " ++ exn_str cause)%string), s1).
Proof.
  intros name Hclient Hname Hfail.
  assert (Hpreset : apply_preset W (ChatRequest.config request)
                      (extract_config (ChatRequest.config request)) s1
                    = (Raised cause, s1)).
  { unfold apply_preset. fold name. rewrite Hname.
    unfold bind at 1, lift at 1.
    destruct Hfail as [Hraise | (preset & Hanswer & Htrue & Hshape & ->)].
    - now rewrite Hraise.
    - rewrite Hanswer, Htrue.
      destruct preset; try reflexivity.
      now destruct (Hshape d). }
  unfold chat_completion, try_except. unfold bind at 1. rewrite Hclient.
  unfold bind at 1. now rewrite Hpreset.
Qed.

Lemma preset_failure_precedes_calls_witness :
  chat_completion
    (world_resolving (fun _ => Ok (JStr "creative")) (Ok JNull))
    preset_conversation initial_state
  = (Raised (HTTPException 500
               "Chat completion failed: 'str' object has no attribute 'get'"),
     after_construction initial_state).
Proof.
  refine (preset_failure_precedes_calls
            (world_resolving (fun _ => Ok (JStr "creative")) (Ok JNull))
            preset_conversation initial_state (after_construction initial_state)
            (mkClient 0) (AttributeError (JStr "creative") "get")
            eq_refl eq_refl _).
  right. exists (JStr "creative"). repeat split. discriminate.
Defined.

(** ** The streaming endpoint *)

(** X11. Without a preset the two chat endpoints resolve the same
    generation parameters: when the configuration names no preset (or a
    false one), what [chat_stream] hands to its generator is what
    [chat_completion]'s preset block returns. *)
Theorem chat_stream_agrees_without_preset
    (W : World) (request : ChatRequest.t) (s s' : State)
    (response : StreamingResponse) :
  truthy (dict_get (ChatRequest.config request) "preset" JNull) = false ->
  chat_stream W request s = (Ok response, s') ->
  apply_preset W (ChatRequest.config request)
    (extract_config (ChatRequest.config request)) s'
  = (Ok (closure_config (body response)), s').
Proof.
  intros Hname Hrun.
  rewrite (chat_stream_config W request s s' response Hrun).
  now apply apply_preset_without_preset.
Qed.

Lemma chat_stream_agrees_without_preset_witness :
  apply_preset sample_world [] (extract_config [])
    (after_construction initial_state)
  = (Ok (GenConfig.Build (JStr "glm-4.5v") (JBool true) (JFloat 0.7)
           (JFloat 0.9) (JInt 2000)),
     after_construction initial_state).
Proof.
  exact (chat_stream_agrees_without_preset sample_world greeting initial_state
           (after_construction initial_state)
           (mkStreamingResponse
              (mkClosure (Some (mkClient 0))
                 (to_messages (ChatRequest.messages greeting))
                 (extract_config []))
              "text/plain"
              [("Cache-Control", "no-cache"); ("Connection", "keep-alive");
               ("Content-Type", "text/stream-event")]%string)
           eq_refl eq_refl).
Defined.

(** what [generate_stream] does before its loop, call by call *)
Lemma open_stream_run
    (W : World) (msgs : list ChatMessage.t) (g : GenConfig.t)
    (client : ZAIClient) (s1 : State) :
  let messages :=
    map (fun m => JDict [("role", JStr (ChatMessage.role m));
                         ("content", JStr (ChatMessage.content m))]) msgs in
  let seed :=
    match msgs with
    | m :: _ => JStr (ChatMessage.content m)
    | [] => JStr "Hello"
    end in
  let create :=
    mkCall "create_chat"
      [("title", JStr "Streaming Chat Session");
       ("models", JList [GenConfig.model g]);
       ("initial_message", seed);
       ("enable_thinking", GenConfig.enable_thinking g)] in
  let stream chat_id :=
    mkCall "stream_completion"
      [("chat_id", chat_id);
       ("messages", JList messages);
       ("model", GenConfig.model g);
       ("enable_thinking", GenConfig.enable_thinking g);
       ("temperature", GenConfig.temperature g);
       ("top_p", GenConfig.top_p g);
       ("max_tokens", GenConfig.max_tokens g)] in
  let streamed chat_id :=
    (stream_completion W (calls s1 ++ [create]) (kwargs (stream chat_id)),
     after_call (after_call s1 create) (stream chat_id)) in
  open_stream W (mkClosure (Some client) (to_messages msgs) g) s1
  = match create_chat W (calls s1) (kwargs create) with
    | Raised cause => (Raised cause, after_call s1 create)
    | Ok chat =>
      if truthy chat then
        match chat with
        | JDict session => streamed (dict_get session "id" JNull)
        | _ => (Raised (AttributeError chat "get"), after_call s1 create)
        end
      else streamed (JStr "default")
    end.
Proof.
  intros messages seed create stream streamed. unfold open_stream.
  cbn [closure_client closure_messages closure_config].
  unfold bind at 1. rewrite initial_message_seed. fold seed.
  unfold bind at 1. rewrite invoke_some.
  change (create_chat_kwargs "Streaming Chat Session" g seed)
    with (kwargs create).
  change (mkCall "create_chat" (kwargs create)) with create.
  destruct (create_chat W (calls s1) (kwargs create)) as [chat | cause];
    [| reflexivity].
  unfold bind at 1, chat_id_of.
  destruct (truthy chat).
  - destruct chat; try reflexivity.
    unfold lift, method_get. rewrite invoke_some.
    unfold to_messages. rewrite map_map. reflexivity.
  - unfold ret. rewrite invoke_some.
    unfold to_messages. rewrite map_map. reflexivity.
Qed.

(** X12. The streaming endpoint always opens a session, also for a single
    user message.  Once the accessor has handed out the client, the handler
    itself answers without calling the client; the first call is made when
    the body is consumed, and it is [create_chat] with the title "Streaming
    Chat Session", seeded with the first message's content or "Hello".  When
    that call raises, the stream is the one error event and nothing else is
    called; otherwise [stream_completion] follows with all messages, and
    with the chat id "default" when the session is a false value. *)
Theorem stream_opens_session
    (W : World) (request : ChatRequest.t) (s s1 : State) (client : ZAIClient)
    (fuel : nat) :
  let g := extract_config (ChatRequest.config request) in
  let messages :=
    map (fun m => JDict [("role", JStr (ChatMessage.role m));
                         ("content", JStr (ChatMessage.content m))])
        (ChatRequest.messages request) in
  let seed :=
    match ChatRequest.messages request with
    | m :: _ => JStr (ChatMessage.content m)
    | [] => JStr "Hello"
    end in
  let create :=
    mkCall "create_chat"
      [("title", JStr "Streaming Chat Session");
       ("models", JList [GenConfig.model g]);
       ("initial_message", seed);
       ("enable_thinking", GenConfig.enable_thinking g)] in
  let stream chat_id :=
    mkCall "stream_completion"
      [("chat_id", chat_id);
       ("messages", JList messages);
       ("model", GenConfig.model g);
       ("enable_thinking", GenConfig.enable_thinking g);
       ("temperature", GenConfig.temperature g);
       ("top_p", GenConfig.top_p g);
       ("max_tokens", GenConfig.max_tokens g)] in
  get_zai_client W s = (Ok (Some client), s1) ->
  exists response,
    chat_stream W request s = (Ok response, s1)
    /\ let run := generate_stream W (body response) (S fuel) s1 in
       match create_chat W (calls s1) (kwargs create) with
       | Raised cause =>
         run = (([error_event W cause], Errored), after_call s1 create)
       | Ok chat =>
         if truthy chat then
           match chat with
           | JDict session =>
             calls (snd run)
             = calls s1 ++ [create; stream (dict_get session "id" JNull)]
           | _ =>
             run = (([error_event W (AttributeError chat "get")], Errored),
                    after_call s1 create)
           end
         else calls (snd run) = calls s1 ++ [create; stream (JStr "default")]
       end.
Proof.
  intros g messages seed create stream Hclient.
  exists (mkStreamingResponse
            (mkClosure (Some client)
               (to_messages (ChatRequest.messages request)) g)
            "text/plain"
            [("Cache-Control", "no-cache"); ("Connection", "keep-alive");
             ("Content-Type", "text/stream-event")]%string).
  split.
  - unfold chat_stream, try_except. unfold bind at 1. rewrite Hclient.
    reflexivity.
  - cbn [body]. cbv zeta. unfold generate_stream.
    rewrite (open_stream_run W (ChatRequest.messages request) g client s1).
    fold messages seed create. fold stream.
    destruct (create_chat W (calls s1) (kwargs create)) as [chat | cause];
      [| reflexivity].
    destruct (truthy chat).
    + destruct chat; try reflexivity.
      destruct (stream_completion W _ _) as [src | e]; cbv beta iota.
      * destruct (stream_loop W src (S fuel) 0) as [evs [| | e]];
          unfold after_call; cbn [snd calls]; now rewrite <- app_assoc.
      * unfold after_call; cbn [snd calls]. now rewrite <- app_assoc.
    + destruct (stream_completion W _ _) as [src | e]; cbv beta iota.
      * destruct (stream_loop W src (S fuel) 0) as [evs [| | e]];
          unfold after_call; cbn [snd calls]; now rewrite <- app_assoc.
      * unfold after_call; cbn [snd calls]. now rewrite <- app_assoc.
Qed.

Lemma stream_opens_session_witness :
  exists response,
    chat_stream (world_resolving sample_get_preset (Ok JNull)) greeting
      initial_state
    = (Ok response, after_construction initial_state)
    /\ calls (snd (generate_stream
                     (world_resolving sample_get_preset (Ok JNull))
                     (body response) 1 (after_construction initial_state)))
       = [mkCall "ZAIClient" [("auto_auth", JBool true)];
          mkCall "create_chat"
            [("title", JStr "Streaming Chat Session");
             ("models", JList [JStr "glm-4.5v"]);
             ("initial_message", JStr "hi");
             ("enable_thinking", JBool true)];
          mkCall "stream_completion"
            [("chat_id", JStr "default");
             ("messages",
              JList [JDict [("role", JStr "user"); ("content", JStr "hi")]]);
             ("model", JStr "glm-4.5v");
             ("enable_thinking", JBool true);
             ("temperature", JFloat 0.7);
             ("top_p", JFloat 0.9);
             ("max_tokens", JInt 2000)]].
Proof.
  destruct (stream_opens_session (world_resolving sample_get_preset (Ok JNull))
              greeting initial_state (after_construction initial_state)
              (mkClient 0) 0 eq_refl) as (response & Hrun & Hcalls).
  exists response. split; [exact Hrun | exact Hcalls].
Defined.

(** X13. Fragments are re-emitted one for one and in order.  When the
    stream is opened and the client's iterator yields fragments that render
    to the events [evs], in this order, and then returns, raises, or yields
    a fragment that cannot be rendered, the body consumed beyond that point
    is exactly [evs], followed by the error event of that exception when
    there is one.  Fragments after that point are not looked at. *)
Theorem stream_reemits_in_order
    (W : World) (c : Closure) (s s1 : State) (src : fragments)
    (evs : list Event) (r : loop_end) (fuel : nat) :
  open_stream W c s = (Ok src, s1) ->
  (forall j ev, nth_error evs j = Some ev ->
                exists chunk, src j = Yield chunk /\ delta_event W chunk = Ok ev) ->
  leaves_loop W (src (List.length evs)) = Some r ->
  List.length evs < fuel ->
  generate_stream W c fuel s
  = (match r with
     | Failed e => (evs ++ [error_event W e], Errored)
     | Exhausted => (evs, Completed)
     | Suspended => (evs, Running)
     end, s1).
Proof.
  intros Hopen Hyields Hleaves Hfuel. unfold generate_stream.
  destruct fuel as [| fuel]; [lia |]. rewrite Hopen.
  rewrite (stream_loop_prefix W src evs 0 (S fuel) r Hyields Hleaves Hfuel).
  now destruct r.
Qed.

Lemma stream_reemits_in_order_witness :
  generate_stream broken_world sample_closure 5 (after_construction initial_state)
  = (([sse broken_world [("delta", JStr "Hel"); ("phase", JStr "answer")];
       error_event broken_world (Exception "connection reset")], Errored),
     snd (open_stream broken_world sample_closure
            (after_construction initial_state))).
Proof.
  refine (stream_reemits_in_order broken_world sample_closure
            (after_construction initial_state) _ broken_fragments
            [sse broken_world [("delta", JStr "Hel"); ("phase", JStr "answer")]]
            (Failed (Exception "connection reset")) 5 eq_refl _ eq_refl _).
  - intros [| [| j]] ev H; inversion H.
    exists (sample_chunk "Hel"). split; reflexivity.
  - simpl. lia.
Defined.

(** ** Messages *)

Lemma to_messages_spoken (msgs msgs' : list ChatMessage.t) :
  map spoken msgs = map spoken msgs' -> to_messages msgs = to_messages msgs'.
Proof.
  revert msgs'. induction msgs as [| m msgs IH]; intros [| m' msgs'] H;
    try discriminate; [reflexivity |].
  inversion H as [[Hrole Hcontent Hrest]].
  simpl. now rewrite Hrole, Hcontent, (IH msgs' Hrest).
Qed.

(** X14. The timestamps of the messages are never forwarded: two requests
    whose messages have the same roles and contents, in the same order, and
    the same configuration are treated alike by both chat endpoints, in
    every world and state. *)
Theorem timestamps_are_not_forwarded
    (W : World) (msgs msgs' : list ChatMessage.t) (config : dict) (s : State) :
  map spoken msgs = map spoken msgs' ->
  chat_completion W (ChatRequest.Build msgs config) s
  = chat_completion W (ChatRequest.Build msgs' config) s
  /\ chat_stream W (ChatRequest.Build msgs config) s
     = chat_stream W (ChatRequest.Build msgs' config) s.
Proof.
  intros H. apply to_messages_spoken in H.
  unfold chat_completion, chat_stream.
  cbn [ChatRequest.messages ChatRequest.config]. now rewrite H.
Qed.

Lemma timestamps_are_not_forwarded_witness :
  chat_completion sample_world
    (ChatRequest.Build [ChatMessage.Build "user" "hi" (Some 1.5%float)] []) initial_state
  = chat_completion sample_world greeting initial_state.
Proof.
  exact (proj1 (timestamps_are_not_forwarded sample_world
                  [ChatMessage.Build "user" "hi" (Some 1.5%float)]
                  [user_says "hi"] [] initial_state eq_refl)).
Defined.

(** ** Conversations *)

Lemma bind_ok {A B} (m : M A) (k : A -> M B) (s s' : State) (a : A) :
  m s = (Ok a, s') -> bind m k s = k a s'.
Proof. intros H. unfold bind. now rewrite H. Qed.

Lemma bind_raised {A B} (m : M A) (k : A -> M B) (s s' : State) (e : exn) :
  m s = (Raised e, s') -> bind m k s = (Raised e, s').
Proof. intros H. unfold bind. now rewrite H. Qed.

Lemma try_except_raised {A} (body : M A) (handler : exn -> M A)
    (s s' : State) (e : exn) :
  body s = (Raised e, s') -> try_except body handler s = handler e s'.
Proof. intros H. unfold try_except. now rewrite H. Qed.

(** X15. A conversation (a request that is not a single user message)
    whose session cannot be created, or whose completion fails.  When
    [create_chat] raises, [chat_completion] raises an HTTP 500 with the text
    of that exception and [complete_chat] is never called.  When the session
    is created and [complete_chat] raises, it raises an HTTP 500 with the
    text of that one; neither call is repeated. *)
Theorem conversation_failure_is_http_500
    (W : World) (request : ChatRequest.t)
    (s s1 : State) (client : ZAIClient) (g : GenConfig.t) (cause : exn) :
  let messages :=
    map (fun m => JDict [("role", JStr (ChatMessage.role m));
                         ("content", JStr (ChatMessage.content m))])
        (ChatRequest.messages request) in
  let seed :=
    match ChatRequest.messages request with
    | m :: _ => JStr (ChatMessage.content m)
    | [] => JStr "Hello"
    end in
  let create :=
    mkCall "create_chat"
      [("title", JStr "API Chat Session");
       ("models", JList [GenConfig.model g]);
       ("initial_message", seed);
       ("enable_thinking", GenConfig.enable_thinking g)] in
  let complete chat_id :=
    mkCall "complete_chat"
      [("chat_id", chat_id);
       ("messages", JList messages);
       ("model", GenConfig.model g);
       ("enable_thinking", GenConfig.enable_thinking g);
       ("temperature", GenConfig.temperature g);
       ("top_p", GenConfig.top_p g);
       ("max_tokens", GenConfig.max_tokens g)] in
  let failure :=
    Raised (HTTPException 500 ("Chat completion failed: " ++ exn_str cause)%string) in
  get_zai_client W s = (Ok (Some client), s1) ->
  apply_preset W (ChatRequest.config request)
    (extract_config (ChatRequest.config request)) s1 = (Ok g, s1) ->
  (forall m, ChatRequest.messages request = [m] ->
             ChatMessage.role m <> "user"%string) ->
  (create_chat W (calls s1) (kwargs create) = Raised cause ->
   chat_completion W request s = (failure, after_call s1 create))
  /\ (forall session,
        create_chat W (calls s1) (kwargs create) = Ok (JDict session) ->
        let completion := complete (dict_get session "id" JNull) in
        complete_chat W (calls s1 ++ [create]) (kwargs completion) = Raised cause ->
        chat_completion W request s
        = (failure, after_call (after_call s1 create) completion)).
Proof.
  intros messages seed create complete failure Hclient Hpreset Hshape.
    assert (Hstart : forall s' : State,
            (initial <- initial_message
                          (to_messages (ChatRequest.messages request)) ;;
             chat <- invoke (Some client) "create_chat" (create_chat W)
                       (create_chat_kwargs "API Chat Session" g initial) ;;
             chat_id <- chat_id_of chat JNull ;;
             invoke (Some client) "complete_chat" (complete_chat W)
               (("chat_id", chat_id)
                :: ("messages",
                    JList (map JDict (to_messages (ChatRequest.messages request))))
                :: generation_kwargs g))%monad s1 = (Raised cause, s') ->
            chat_completion W request s = (failure, s')).
    { intros s' Hbranch. unfold chat_completion.
    erewrite try_except_raised; [reflexivity |].
    erewrite bind_ok by exact Hclient.
    erewrite bind_ok by exact Hpreset.
    erewrite bind_ok by exact (not_single_user_message _ _ Hshape).
    cbv iota. now apply bind_raised. }
  split.
  - intros Hcreate. apply Hstart.
    erewrite bind_ok by apply initial_message_seed.
    apply bind_raised. rewrite invoke_some.
    change (create_chat_kwargs "API Chat Session" g _) with (kwargs create).
    now rewrite Hcreate.
  - intros session Hcreate completion Hcomplete. apply Hstart.
    erewrite bind_ok by apply initial_message_seed.
    erewrite bind_ok;
      [| rewrite invoke_some;
         change (create_chat_kwargs "API Chat Session" g _) with (kwargs create);
         rewrite Hcreate; reflexivity].
    assert (Hid : forall s0,
              chat_id_of (JDict session) JNull s0
              = (Ok (dict_get session "id" JNull), s0)).
    { intros s0. now destruct session. }
    erewrite bind_ok by apply Hid.
    rewrite invoke_some. unfold to_messages. rewrite map_map.
    cbn [calls]. fold messages.
    change (complete_chat W (calls s1 ++ [mkCall "create_chat" (kwargs create)]) _)
      with (complete_chat W (calls s1 ++ [create]) (kwargs completion)).
    now rewrite Hcomplete.
Qed.

Lemma conversation_failure_is_http_500_witness :
  chat_completion
    (world_resolving sample_get_preset (Raised (Exception "session limit")))
    preset_conversation initial_state
  = (Raised (HTTPException 500 "Chat completion failed: session limit"),
     after_call (after_construction initial_state)
       (mkCall "create_chat"
          [("title", JStr "API Chat Session");
           ("models", JList [JStr "glm-4.5v"]);
           ("initial_message", JStr "hi");
           ("enable_thinking", JBool true)])).
Proof.
  refine (proj1 (conversation_failure_is_http_500
                   (world_resolving sample_get_preset
                      (Raised (Exception "session limit")))
                   preset_conversation initial_state
                   (after_construction initial_state) (mkClient 0)
                   (GenConfig.Build (JStr "glm-4.5v") (JBool true) (JFloat 1.2)
                      (JFloat 0.9) (JInt 2000))
                   (Exception "session limit") eq_refl eq_refl _) eq_refl).
  intros m H. discriminate H.
Defined.
